(** * LB Probe API (app/main.py): a shallow embedding and its properties

    The program is a FastAPI application with two GET routes: a liveness
    probe [/healthz] and a diagnostic root [/] that queries the EC2
    instance metadata service (IMDSv2) and renders what it found as JSON.

    Everything the handlers do to the outside world (HTTP calls to the
    metadata service, socket name resolution, clock reads) goes through an
    error-and-trace monad [IO]: the environment answers each call from the
    history of the calls made so far, and every call is logged with its
    outcome. The module [Task] adds what can interrupt a handler from
    outside: the cancellation of its task and a request URL that does not
    parse. *)

From Stdlib Require Import String Ascii List ZArith Bool Lia.
Import ListNotations.
Open Scope string_scope.
Open Scope list_scope.
Open Scope Z_scope.

(** ** Python values *)

(** A Python [str], held as its UTF-8 encoding. *)
Definition str := string.

(** Truthiness of a [str]: only the empty string is falsy. *)
Definition str_truthy (s : str) : bool :=
  match s with EmptyString => false | String _ _ => true end.

(** Truthiness of a [str | None]. *)
Definition truthy (v : option str) : bool :=
  match v with Some s => str_truthy s | None => false end.

(** [a or b] on [str | None] operands, [b] being already evaluated. *)
Definition py_or (a b : option str) : option str :=
  if truthy a then a else b.

(** [a or b] when [b] is a [str]: the result is a [str]. *)
Definition py_or_str (a : option str) (b : str) : str :=
  match a with
  | Some s => if str_truthy s then s else b
  | None => b
  end.

(** *** [str.strip()] *)

Fixpoint bytes (l : list nat) : string :=
  match l with
  | nil => EmptyString
  | n :: r => String (ascii_of_nat n) (bytes r)
  end.

(** The characters for which [str.isspace] holds, UTF-8 encoded:
    U+0009..U+000D, U+001C..U+001F, U+0020, U+0085, U+00A0, U+1680,
    U+2000..U+200A, U+2028, U+2029, U+202F, U+205F, U+3000. *)
Definition py_whitespace : list string :=
  map bytes
    [ [9]; [10]; [11]; [12]; [13]; [28]; [29]; [30]; [31]; [32];
      [194; 133]; [194; 160]; [225; 154; 128];
      [226; 128; 128]; [226; 128; 129]; [226; 128; 130]; [226; 128; 131];
      [226; 128; 132]; [226; 128; 133]; [226; 128; 134]; [226; 128; 135];
      [226; 128; 136]; [226; 128; 137]; [226; 128; 138];
      [226; 128; 168]; [226; 128; 169]; [226; 128; 175];
      [226; 129; 159]; [227; 128; 128] ]%nat.

Fixpoint rev_string (s : string) : string :=
  match s with
  | EmptyString => EmptyString
  | String c r => (rev_string r ++ String c EmptyString)%string
  end.

(** Length of the pattern of [pats] that starts [s], 0 when none does. *)
Definition leading_len (pats : list string) (s : string) : nat :=
  match find (fun w => prefix w s) pats with
  | Some w => String.length w
  | None => O
  end.

(** Drop leading occurrences of the patterns; [skip] counts the bytes of
    a matched pattern that remain to be dropped. *)
Fixpoint drop_leading (pats : list string) (skip : nat) (s : string) : string :=
  match s with
  | EmptyString => EmptyString
  | String c r =>
      match skip with
      | S k => drop_leading pats k r
      | O =>
          match leading_len pats (String c r) with
          | O => String c r
          | S k => drop_leading pats k r
          end
      end
  end.

Definition lstrip (s : str) : str := drop_leading py_whitespace O s.

Definition rstrip (s : str) : str :=
  rev_string (drop_leading (map rev_string py_whitespace) O (rev_string s)).

Definition strip (s : str) : str := rstrip (lstrip s).

(** ** Exceptions and results *)

(** The exceptions a call can raise, all of them subclasses of Python's
    [Exception]; the two handlers of [imds_get] tell [httpx.HTTPError]
    from the rest. What derives from [BaseException] alone (task
    cancellation) is no outcome of a call and is left out here; the
    module [Task] below has it. *)
Inductive exn : Type :=
| TimeoutException   (* httpx: a request ran past the 0.5 s timeout *)
| ConnectError       (* httpx: connection refused, name not resolved *)
| HTTPErrorOther     (* any other subclass of httpx.HTTPError *)
| OSError            (* socket.gaierror, socket.herror, ... *)
| ExceptionOther.    (* any other subclass of Exception *)

(** [isinstance(e, httpx.HTTPError)] *)
Definition isinstance_HTTPError (e : exn) : bool :=
  match e with
  | TimeoutException | ConnectError | HTTPErrorOther => true
  | OSError | ExceptionOther => false
  end.

(** [isinstance(e, Exception)] *)
Definition isinstance_Exception (e : exn) : bool := true.

Inductive result (A : Type) : Type :=
| Ok (a : A)
| Raise (e : exn).
Arguments Ok {A} a.
Arguments Raise {A} e.

(** ** The outside world *)

(** What [httpx] hands back for a request that completed. *)
Record httpx_Response : Type := mk_httpx_Response {
  status_code : Z;
  text : str
}.

Definition headers_t := list (str * str).

(** A call to the outside world, logged with its outcome. *)
Inductive event : Type :=
| EvPut (url : str) (hdrs : headers_t) (out : result httpx_Response)
| EvGet (url : str) (hdrs : headers_t) (out : result httpx_Response)
| EvGetHostName (out : result str)
| EvGetHostByName (name : str) (out : result str)
| EvPerfCounter (tick : Z)
| EvUtcNow (micros : Z).

Definition trace := list event.

(** The environment answers each call from the history of the calls made
    before it, so that a service may answer the same request differently
    over time. *)
Record Env : Type := mk_Env {
  env_put : trace -> str -> headers_t -> result httpx_Response;
  env_get : trace -> str -> headers_t -> result httpx_Response;
  env_gethostname : trace -> result str;
  env_gethostbyname : trace -> str -> result str;
  (* reading of time.perf_counter(), in clock ticks *)
  env_perf_counter : trace -> Z;
  (* UTC wall clock, microseconds since 1970-01-01T00:00:00 *)
  env_utcnow : trace -> Z;
  (* tm_gmtoff of the host's local time zone, in seconds, at the given
     local wall-clock second *)
  env_local_gmtoff : Z -> Z
}.

(** ** The monad of the handlers *)

Definition IO (A : Type) : Type := Env -> trace -> result A * trace.

Definition ret {A} (a : A) : IO A := fun _ t => (Ok a, t).

Definition bind {A B} (m : IO A) (k : A -> IO B) : IO B :=
  fun env t =>
    match m env t with
    | (Ok a, t') => k a env t'
    | (Raise e, t') => (Raise e, t')
    end.

(** [try: body / except <catches>: handler] *)
Definition try_except {A} (body : IO A) (catches : exn -> bool)
    (handler : IO A) : IO A :=
  fun env t =>
    match body env t with
    | (Ok a, t') => (Ok a, t')
    | (Raise e, t') => if catches e then handler env t' else (Raise e, t')
    end.

Declare Scope io_scope.
Delimit Scope io_scope with io.
Notation "x <- c1 ;; c2" := (bind c1 (fun x => c2))
  (at level 100, c1 at next level, right associativity) : io_scope.
Open Scope io_scope.

(** A call whose outcome is a value or an exception. *)
Definition perform {A} (ask : Env -> trace -> result A)
    (log : result A -> event) : IO A :=
  fun env t => let out := ask env t in (out, t ++ [log out]).

Definition client_put (url : str) (hdrs : headers_t) : IO httpx_Response :=
  perform (fun env t => env_put env t url hdrs) (EvPut url hdrs).

Definition client_get (url : str) (hdrs : headers_t) : IO httpx_Response :=
  perform (fun env t => env_get env t url hdrs) (EvGet url hdrs).

Definition socket_gethostname : IO str :=
  perform env_gethostname EvGetHostName.

Definition socket_gethostbyname (name : str) : IO str :=
  perform (fun env t => env_gethostbyname env t name) (EvGetHostByName name).

(** Python floats are IEEE binary64 values. Their arithmetic is not
    interpreted here: a float is kept as the expression that computes it. *)
Inductive pyfloat : Type :=
| FClock (tick : Z)                  (* a reading of time.perf_counter() *)
| FSub (a b : pyfloat)               (* a - b *)
| FMul (a : pyfloat) (k : Z)         (* a * k *)
| FRound (a : pyfloat) (ndigits : Z). (* round(a, ndigits) *)

Definition time_perf_counter : IO pyfloat :=
  fun env t =>
    let v := env_perf_counter env t in (Ok (FClock v), t ++ [EvPerfCounter v]).

(** ** The metadata fetch helper *)

Definition IMDS_BASE : str := "http://169.254.169.254/latest".
Definition IMDS_TOKEN_URL : str := (IMDS_BASE ++ "/api/token")%string.
Definition IMDS_HEADERS : headers_t :=
  [("X-aws-ec2-metadata-token-ttl-seconds", "21600")].

Definition meta_data_url (path : str) : str :=
  (IMDS_BASE ++ "/meta-data/" ++ path)%string.

(** [{"X-aws-ec2-metadata-token": tok} if tok else {}] *)
Definition token_headers (tok : option str) : headers_t :=
  match tok with
  | Some s => if str_truthy s then [("X-aws-ec2-metadata-token", s)] else []
  | None => []
  end.

(** The inner [try]: [tok] stays [None] unless the PUT answers 200. *)
Definition acquire_token : IO (option str) :=
  try_except
    (r <- client_put IMDS_TOKEN_URL IMDS_HEADERS ;;
     if status_code r =? 200 then ret (Some (strip (text r))) else ret None)
    isinstance_HTTPError
    (ret None).

Definition imds_get (path : str) : IO (option str) :=
  try_except
    (tok <- acquire_token ;;
     r2 <- client_get (meta_data_url path) (token_headers tok) ;;
     if status_code r2 =? 200 then ret (Some (strip (text r2))) else ret None)
    isinstance_Exception
    (ret None).

(** ** The local fallback resolver *)

Definition get_private_ip_fallback : IO str :=
  try_except
    (hostname <- socket_gethostname ;;
     socket_gethostbyname hostname)
    isinstance_Exception
    (ret "desconhecido").

(** ** Dates and times *)

(** A [datetime]: its wall-clock reading in microseconds since
    1970-01-01T00:00:00, and the UTC offset of its [tzinfo] in seconds
    ([None] for a naive datetime). *)
Record datetime : Type := mk_datetime {
  wall_us : Z;
  tzinfo : option Z
}.

(** [datetime.utcnow()]: the UTC wall clock as a naive datetime. *)
Definition utcnow : IO datetime :=
  fun env t =>
    let v := env_utcnow env t in (Ok (mk_datetime v None), t ++ [EvUtcNow v]).

(** [d.astimezone(timezone(timedelta(seconds=tz)))]. A naive [d] is taken
    to be in the host's local time zone, whose offset comes from the
    environment; the reading is brought to UTC and then moved to [tz]. *)
Definition astimezone (d : datetime) (tz : Z) : IO datetime :=
  fun env t =>
    let myoffset :=
      match tzinfo d with
      | Some off => off
      | None => env_local_gmtoff env (wall_us d / 1000000)
      end in
    (Ok (mk_datetime (wall_us d - myoffset * 1000000 + tz * 1000000) (Some tz)), t).

(** Calendar fields of a wall-clock reading (proleptic Gregorian). *)
Record civil : Type := mk_civil {
  year : Z; month : Z; day : Z;
  hour : Z; minute : Z; second : Z; microsecond : Z
}.

(** Year, month and day of the day that lies [z0] days after 1970-01-01. *)
Definition civil_of_days (z0 : Z) : Z * Z * Z :=
  let z := z0 + 719468 in
  let era := z / 146097 in
  let doe := z - era * 146097 in
  let yoe := (doe - doe / 1460 + doe / 36524 - doe / 146096) / 365 in
  let doy := doe - (365 * yoe + yoe / 4 - yoe / 100) in
  let mp := (5 * doy + 2) / 153 in
  let d := doy - (153 * mp + 2) / 5 + 1 in
  let m := if mp <? 10 then mp + 3 else mp - 9 in
  let y := yoe + era * 400 + (if m <=? 2 then 1 else 0) in
  (y, m, d).

(** The calendar fields that a datetime's wall-clock reading stands for. *)
Definition fields (d : datetime) : civil :=
  let secs := wall_us d / 1000000 in
  let sod := secs mod 86400 in
  let '(y, m, dd) := civil_of_days (secs / 86400) in
  mk_civil y m dd (sod / 3600) (sod mod 3600 / 60) (sod mod 60)
           (wall_us d mod 1000000).

(** The last decimal digit of [n], as a character. *)
Definition digit (n : Z) : ascii := ascii_of_nat (48 + Z.to_nat (n mod 10)).

(** [n] in decimal, zero-padded to [width] digits. *)
Fixpoint zfill (width : nat) (n : Z) : string :=
  match width with
  | O => EmptyString
  | S w => (zfill w (n / 10) ++ String (digit n) EmptyString)%string
  end.

(** [d.isoformat()] of a naive datetime (years 1000..9999). *)
Definition isoformat (d : datetime) : str :=
  let c := fields d in
  (zfill 4 (year c) ++ "-" ++ zfill 2 (month c) ++ "-" ++ zfill 2 (day c)
   ++ "T" ++ zfill 2 (hour c) ++ ":" ++ zfill 2 (minute c) ++ ":"
   ++ zfill 2 (second c)
   ++ (if (microsecond c =? 0)%Z then ""
       else "." ++ zfill 6 (microsecond c)))%string.

(** [d.strftime("%d/%m/%Y %I:%M:%S %p UTC-3")] in the C locale (years
    1000..9999). *)
Definition strftime_brt (d : datetime) : str :=
  let c := fields d in
  let h12 := if hour c mod 12 =? 0 then 12 else hour c mod 12 in
  (zfill 2 (day c) ++ "/" ++ zfill 2 (month c) ++ "/" ++ zfill 4 (year c)
   ++ " " ++ zfill 2 h12 ++ ":" ++ zfill 2 (minute c) ++ ":"
   ++ zfill 2 (second c) ++ " " ++ (if (hour c <? 12)%Z then "AM" else "PM")
   ++ " UTC-3")%string.

(** ** Requests and responses *)

#[warnings="-register-all"]
Inductive json : Type :=
| JNull
| JBool (b : bool)
| JNum (x : pyfloat)
| JStr (s : str)
| JObj (members : list (str * json)).

(** A [str | None] as a JSON value. *)
Definition json_of_opt (v : option str) : json :=
  match v with Some s => JStr s | None => JNull end.

Inductive Response : Type :=
| JSONResponse (content : json) (status : Z)
| PlainTextResponse (content : str) (status : Z).

Record Address : Type := mk_Address { client_host : str; client_port : Z }.

Record URL : Type := mk_URL {
  url_scheme : str;
  url_hostname : option str;
  url_path : str
}.

Record Request : Type := mk_Request {
  headers : headers_t;          (* names in lower case, in arrival order *)
  method : str;
  url : URL;
  client : option Address
}.

(** [request.headers.get(key)]: the value of the first header named
    [key], [None] when there is none. *)
Fixpoint headers_get (key : str) (h : headers_t) : option str :=
  match h with
  | [] => None
  | (k, v) :: r => if String.eqb k key then Some v else headers_get key r
  end.

(** ** The endpoints *)

Definition healthz : IO Response :=
  ret (PlainTextResponse "ok" 200).

Definition mensagem : str :=
  "Teste de Load Balancing da AWS — FastAPI em execução.".

Definition root (request : Request) : IO Response :=
  t0 <- time_perf_counter ;;
  let host := py_or (py_or (headers_get "x-forwarded-host" (headers request))
                           (headers_get "host" (headers request)))
                    (url_hostname (url request)) in
  let scheme := py_or_str (headers_get "x-forwarded-proto" (headers request))
                          (url_scheme (url request)) in
  public_ip <- imds_get "public-ipv4" ;;
  private_ip <- (v <- imds_get "local-ipv4" ;;
                 match v with
                 | Some s => if str_truthy s then ret s
                             else get_private_ip_fallback
                 | None => get_private_ip_fallback
                 end) ;;
  instance_id <- imds_get "instance-id" ;;
  az <- imds_get "placement/availability-zone" ;;
  t1 <- time_perf_counter ;;
  let ping_ms := FRound (FMul (FSub t1 t0) 1000) 2 in
  let ip_cliente :=
    py_or (headers_get "x-forwarded-for" (headers request))
          (match client request with
           | Some a => Some (client_host a)
           | None => None
           end) in
  now_utc <- utcnow ;;
  now_brt <- utcnow ;;
  brt <- astimezone now_brt (-3 * 3600) ;;
  ret (JSONResponse
         (JObj
            [ ("ok", JBool true);
              ("mensagem", JStr mensagem);
              ("acesso",
               JObj [ ("dns_usado", json_of_opt host);
                      ("esquema", JStr scheme);
                      ("metodo", JStr (method request));
                      ("path", JStr (url_path (url request)));
                      ("ip_cliente", json_of_opt ip_cliente) ]);
              ("instancia",
               JObj [ ("ip_publico_vm", JStr (py_or_str public_ip "indisponivel"));
                      ("ip_privado_vm", JStr private_ip);
                      ("instance_id", JStr (py_or_str instance_id "desconhecido"));
                      ("availability_zone", JStr (py_or_str az "desconhecida")) ]);
              ("ping_ms", JNum ping_ms);
              ("server_time_utc", JStr (isoformat now_utc ++ "Z")%string);
              ("server_time_brt", JStr (strftime_brt brt));
              ("version", JStr "1.0.0") ])
         200).

(** ** Routing *)

(** FastAPI's router, as far as the two [@app.get] decorators use it: a
    route matches a request fully when path and method agree, partially
    when only the path does; the first full match handles the request,
    else a partial match answers 405, else the router answers 404.

    The model is meant for requests whose path is exactly [/] or
    [/healthz]. It leaves out the routes that FastAPI adds of its own
    ([/docs], [/redoc], [/openapi.json]), the redirect of a trailing
    slash, and the line feed that the path pattern of a route lets pass at
    the end of a path. *)
Inductive Match : Type := NONE | PARTIAL | FULL.

Record Route : Type := mk_Route {
  route_path : str;
  route_methods : list str;
  endpoint : Request -> IO Response
}.

(** [@app.get(p)] registers the endpoint for the GET method alone. *)
Definition app_get (p : str) (f : Request -> IO Response) : Route :=
  mk_Route p ["GET"] f.

Definition routes : list Route :=
  [ app_get "/healthz" (fun _ => healthz);
    app_get "/" root ].

Definition matches (r : Route) (request : Request) : Match :=
  if String.eqb (url_path (url request)) (route_path r) then
    if existsb (String.eqb (method request)) (route_methods r)
    then FULL else PARTIAL
  else NONE.

Definition method_not_allowed : Response :=
  JSONResponse (JObj [("detail", JStr "Method Not Allowed")]) 405.

Definition not_found : Response :=
  JSONResponse (JObj [("detail", JStr "Not Found")]) 404.

Fixpoint route_request (rs : list Route) (partial : bool)
    (request : Request) : IO Response :=
  match rs with
  | [] => ret (if partial then method_not_allowed else not_found)
  | r :: rest =>
      match matches r request with
      | FULL => endpoint r request
      | PARTIAL => route_request rest true request
      | NONE => route_request rest partial request
      end
  end.

Definition app (request : Request) : IO Response :=
  route_request routes false request.

(** ** Observations of a run *)

(** What both the token step and the attribute step keep of an outcome:
    the trimmed text of a 200 answer, nothing otherwise. *)
Definition text_if_200 (out : result httpx_Response) : option str :=
  match out with
  | Ok r => if status_code r =? 200 then Some (strip (text r)) else None
  | Raise _ => None
  end.

(** The attribute GET as [imds_get] issues it once the token step has left
    [tok], from the history [t1]. *)
Definition get_stage (path : str) (tok : option str) (env : Env) (t1 : trace)
    : result (option str) * trace :=
  let gout := env_get env t1 (meta_data_url path) (token_headers tok) in
  (Ok (text_if_200 gout),
   t1 ++ [EvGet (meta_data_url path) (token_headers tok) gout]).

Definition put_event (env : Env) (t : trace) : event :=
  EvPut IMDS_TOKEN_URL IMDS_HEADERS (env_put env t IMDS_TOKEN_URL IMDS_HEADERS).

(** Value and history that a call of [imds_get] leaves. *)
Definition imds_val (path : str) (env : Env) (t : trace) : option str :=
  match fst (imds_get path env t) with Ok v => v | Raise _ => None end.

Definition imds_trace (path : str) (env : Env) (t : trace) : trace :=
  snd (imds_get path env t).

(** Value and history that a call of the fallback resolver leaves. *)
Definition fallback_val (env : Env) (t : trace) : str :=
  match fst (get_private_ip_fallback env t) with
  | Ok v => v
  | Raise _ => "desconhecido"
  end.

Definition fallback_trace (env : Env) (t : trace) : trace :=
  snd (get_private_ip_fallback env t).

(** The address the two socket calls resolve from the history [t], or the
    placeholder when either of them raises. *)
Definition resolved_or_desconhecido (env : Env) (t : trace) : str :=
  match env_gethostname env t with
  | Ok h =>
      match env_gethostbyname env (t ++ [EvGetHostName (Ok h)]) h with
      | Ok ip => ip
      | Raise _ => "desconhecido"
      end
  | Raise _ => "desconhecido"
  end.

(** The fetched values and the histories along a run of [root] that
    starts from the history [t]. *)
Definition t_start (env : Env) (t : trace) : trace :=
  t ++ [EvPerfCounter (env_perf_counter env t)].

Definition public_ip_fetched (env : Env) (t : trace) : option str :=
  imds_val "public-ipv4" env (t_start env t).

Definition t_public (env : Env) (t : trace) : trace :=
  imds_trace "public-ipv4" env (t_start env t).

Definition local_ip_fetched (env : Env) (t : trace) : option str :=
  imds_val "local-ipv4" env (t_public env t).

Definition t_local (env : Env) (t : trace) : trace :=
  imds_trace "local-ipv4" env (t_public env t).

Definition private_ip_resolved (env : Env) (t : trace) : str :=
  match local_ip_fetched env t with
  | Some s => if str_truthy s then s else fallback_val env (t_local env t)
  | None => fallback_val env (t_local env t)
  end.

Definition t_private (env : Env) (t : trace) : trace :=
  if truthy (local_ip_fetched env t) then t_local env t
  else fallback_trace env (t_local env t).

Definition instance_id_fetched (env : Env) (t : trace) : option str :=
  imds_val "instance-id" env (t_private env t).

Definition t_instance (env : Env) (t : trace) : trace :=
  imds_trace "instance-id" env (t_private env t).

Definition az_fetched (env : Env) (t : trace) : option str :=
  imds_val "placement/availability-zone" env (t_instance env t).

Definition t_az (env : Env) (t : trace) : trace :=
  imds_trace "placement/availability-zone" env (t_instance env t).

Definition t_ping (env : Env) (t : trace) : trace :=
  t_az env t ++ [EvPerfCounter (env_perf_counter env (t_az env t))].

Definition t_utc (env : Env) (t : trace) : trace :=
  t_ping env t ++ [EvUtcNow (env_utcnow env (t_ping env t))].

Definition t_brt (env : Env) (t : trace) : trace :=
  t_utc env t ++ [EvUtcNow (env_utcnow env (t_utc env t))].

(** The datetime that [server_time_brt] renders: the second clock reading
    of the run, passed through [astimezone]. *)
Definition brt_datetime (env : Env) (t : trace) : datetime :=
  let now := env_utcnow env (t_utc env t) in
  mk_datetime
    (now - env_local_gmtoff env (now / 1000000) * 1000000 + -3 * 3600 * 1000000)
    (Some (-3 * 3600)).

Definition acesso_of (request : Request) : json :=
  JObj [ ("dns_usado",
          json_of_opt
            (py_or (py_or (headers_get "x-forwarded-host" (headers request))
                          (headers_get "host" (headers request)))
                   (url_hostname (url request))));
         ("esquema",
          JStr (py_or_str (headers_get "x-forwarded-proto" (headers request))
                          (url_scheme (url request))));
         ("metodo", JStr (method request));
         ("path", JStr (url_path (url request)));
         ("ip_cliente",
          json_of_opt
            (py_or (headers_get "x-forwarded-for" (headers request))
                   (match client request with
                    | Some a => Some (client_host a)
                    | None => None
                    end))) ].

Definition instancia_of (env : Env) (t : trace) : json :=
  JObj [ ("ip_publico_vm",
          JStr (py_or_str (public_ip_fetched env t) "indisponivel"));
         ("ip_privado_vm", JStr (private_ip_resolved env t));
         ("instance_id",
          JStr (py_or_str (instance_id_fetched env t) "desconhecido"));
         ("availability_zone",
          JStr (py_or_str (az_fetched env t) "desconhecida")) ].

(** The payload of a run of [root], in terms of what the run fetched. *)
Definition root_payload (request : Request) (env : Env) (t : trace) : json :=
  JObj [ ("ok", JBool true);
         ("mensagem", JStr mensagem);
         ("acesso", acesso_of request);
         ("instancia", instancia_of env t);
         ("ping_ms",
          JNum (FRound
                  (FMul (FSub (FClock (env_perf_counter env (t_az env t)))
                              (FClock (env_perf_counter env t))) 1000) 2));
         ("server_time_utc",
          JStr (isoformat (mk_datetime (env_utcnow env (t_ping env t)) None)
                ++ "Z")%string);
         ("server_time_brt", JStr (strftime_brt (brt_datetime env t)));
         ("version", JStr "1.0.0") ].

(** ** Reading a JSON value *)

Fixpoint assoc (key : str) (l : list (str * json)) : option json :=
  match l with
  | [] => None
  | (k, v) :: r => if String.eqb k key then Some v else assoc key r
  end.

(** [j[key]], [None] when [j] is no object or has no such key. *)
Definition json_get (key : str) (j : json) : option json :=
  match j with
  | JObj l => assoc key l
  | _ => None
  end.

(** [j[k1][k2]...] *)
Fixpoint json_at (keys : list str) (j : json) : option json :=
  match keys with
  | [] => Some j
  | k :: r =>
      match json_get k j with
      | Some j' => json_at r j'
      | None => None
      end
  end.

Inductive jkind : Type := KNull | KBool | KNum | KStr | KObj.

Definition kind_of (j : json) : jkind :=
  match j with
  | JNull => KNull
  | JBool _ => KBool
  | JNum _ => KNum
  | JStr _ => KStr
  | JObj _ => KObj
  end.

(** The keys of an object, in order, each with the kind of its value. *)
Definition shape (j : json) : list (str * jkind) :=
  match j with
  | JObj l => map (fun kv => (fst kv, kind_of (snd kv))) l
  | _ => []
  end.

Definition keys (j : json) : list str := map fst (shape j).

(** What came back from a handler, when it is a JSON response. *)
Definition content_of (r : result Response * trace) : option json :=
  match fst r with
  | Ok (JSONResponse c _) => Some c
  | _ => None
  end.

(** The member at [ks] of the JSON content a handler returned. *)
Definition field (ks : list str) (r : result Response * trace) : option json :=
  match content_of r with
  | Some j => json_at ks j
  | None => None
  end.

(** [request.client.host if request.client else None], as JSON. *)
Definition peer_address (request : Request) : json :=
  match client request with
  | Some a => JStr (client_host a)
  | None => JNull
  end.

(** The host of the raw request: its Host header, else the host name of
    its URL. *)
Definition raw_host (request : Request) : json :=
  json_of_opt (py_or (headers_get "host" (headers request))
                     (url_hostname (url request))).

(** The token step ended without a token in a way the inner handler
    covers: an answer other than 200, or an [httpx.HTTPError]. *)
Definition token_step_failed (out : result httpx_Response) : Prop :=
  match out with
  | Ok r => status_code r <> 200
  | Raise e => isinstance_HTTPError e = true
  end.

(** The metadata service answers every GET of the attribute [p] with
    status 200 and a body that trims to the empty string. *)
Definition answers_blank_200 (env : Env) (p : str) : Prop :=
  forall (t : trace) (hdrs : headers_t),
  exists r,
    env_get env t (meta_data_url p) hdrs = Ok r /\
    status_code r = 200 /\ strip (text r) = "".

(** ** Sample environments and requests *)

(** A line feed. *)
Definition LF : string := bytes [10%nat].

(** 2024-01-01T12:00:00 UTC, in microseconds since the epoch. *)
Definition noon_2024_01_01 : Z := 1704110400000000.

(** A host outside AWS: the metadata address does not answer, the host
    name resolves, the host's clock is set to UTC. *)
Definition env_unreachable : Env :=
  mk_Env (fun _ _ _ => Raise ConnectError)
         (fun _ _ _ => Raise ConnectError)
         (fun _ => Ok "ip-10-0-0-7")
         (fun _ _ => Ok "10.0.0.7")
         (fun t => Z.of_nat (List.length t))
         (fun _ => noon_2024_01_01)
         (fun _ => 0).

(** The same host with its local time zone set to UTC-3
    (TZ=America/Sao_Paulo). *)
Definition env_host_utc_minus_3 : Env :=
  mk_Env (env_put env_unreachable) (env_get env_unreachable)
         (env_gethostname env_unreachable) (env_gethostbyname env_unreachable)
         (env_perf_counter env_unreachable) (env_utcnow env_unreachable)
         (fun _ => -10800).

(** The token PUT times out; the metadata GET answers without a token. *)
Definition env_token_timeout : Env :=
  mk_Env (fun _ _ _ => Raise TimeoutException)
         (fun _ _ _ => Ok (mk_httpx_Response 200 (" i-0abc12" ++ LF)%string))
         (env_gethostname env_unreachable) (env_gethostbyname env_unreachable)
         (env_perf_counter env_unreachable) (env_utcnow env_unreachable)
         (fun _ => 0).

(** The token PUT raises an exception that is no [httpx.HTTPError]; the
    metadata GET would answer without a token. *)
Definition env_token_other_exception : Env :=
  mk_Env (fun _ _ _ => Raise ExceptionOther)
         (fun _ _ _ => Ok (mk_httpx_Response 200 "i-0abc12"))
         (env_gethostname env_unreachable) (env_gethostbyname env_unreachable)
         (env_perf_counter env_unreachable) (env_utcnow env_unreachable)
         (fun _ => 0).

(** The metadata service hands out a token and answers every GET with
    status 200 and a body of white space. *)
Definition env_blank : Env :=
  mk_Env (fun _ _ _ => Ok (mk_httpx_Response 200 "AQAEAtoken"))
         (fun _ _ _ => Ok (mk_httpx_Response 200 ("  " ++ LF)%string))
         (env_gethostname env_unreachable) (env_gethostbyname env_unreachable)
         (env_perf_counter env_unreachable) (env_utcnow env_unreachable)
         (fun _ => 0).

Definition url_root : URL := mk_URL "http" (Some "lb.example.com") "/".

Definition req_get_root : Request :=
  mk_Request [("host", "lb.example.com")] "GET" url_root
             (Some (mk_Address "10.0.0.9" 41234)).

Definition req_post_root : Request :=
  mk_Request [("host", "lb.example.com")] "POST" url_root
             (Some (mk_Address "10.0.0.9" 41234)).

Definition req_get_healthz : Request :=
  mk_Request [("host", "lb.example.com")] "GET"
             (mk_URL "http" (Some "lb.example.com") "/healthz")
             (Some (mk_Address "10.0.0.9" 41234)).

(** The forwarded headers are there with empty values. *)
Definition req_empty_forwarded : Request :=
  mk_Request [("host", "lb.example.com");
              ("x-forwarded-for", "");
              ("x-forwarded-host", "");
              ("x-forwarded-proto", "")]
             "GET" url_root (Some (mk_Address "10.0.0.9" 41234)).

(** No forwarded-for header and no peer address. *)
Definition req_no_peer : Request :=
  mk_Request [("host", "lb.example.com")] "GET" url_root None.

(** ** Reading a history *)

Definition is_put (ev : event) : bool :=
  match ev with EvPut _ _ _ => true | _ => false end.

Definition is_get (ev : event) : bool :=
  match ev with EvGet _ _ _ => true | _ => false end.

Definition is_socket (ev : event) : bool :=
  match ev with
  | EvGetHostName _ | EvGetHostByName _ _ => true
  | _ => false
  end.

Definition is_clock (ev : event) : bool :=
  match ev with
  | EvPerfCounter _ | EvUtcNow _ => true
  | _ => false
  end.

(** How many of the logged calls satisfy [f]. *)
Definition count (f : event -> bool) (evs : trace) : nat :=
  List.length (filter f evs).

(** An HTTP call went to the metadata address; other calls pass. *)
Definition targets_imds (ev : event) : bool :=
  match ev with
  | EvPut u _ _ | EvGet u _ _ => prefix IMDS_BASE u
  | _ => true
  end.

(** The URLs of the GETs of a history, in order. *)
Definition get_urls (evs : trace) : list str :=
  flat_map (fun ev => match ev with EvGet u _ _ => [u] | _ => [] end) evs.

(** The calls one run of [imds_get] for the attribute [p] can log: the
    token PUT, then at most the GET of the attribute. *)
Definition imds_segment (p : str) (evs : trace) : Prop :=
  exists pout,
    evs = [EvPut IMDS_TOKEN_URL IMDS_HEADERS pout] \/
    exists hdrs gout,
      evs = [EvPut IMDS_TOKEN_URL IMDS_HEADERS pout;
             EvGet (meta_data_url p) hdrs gout].

(** The calls one run of the fallback resolver can log. *)
Definition fallback_segment (evs : trace) : Prop :=
  (exists e, evs = [EvGetHostName (Raise e)]) \/
  (exists h out, evs = [EvGetHostName (Ok h); EvGetHostByName h out]).

(** A [str] carries no white space at either end. *)
Definition trimmed (s : str) : Prop := lstrip s = s /\ rstrip s = s.

(** No pattern of [pats] starts [s]. *)
Definition no_leading (pats : list string) (s : string) : Prop :=
  forall w, In w pats -> prefix w s = false.

(** The headers of an attribute GET are in order: none, or the token
    header alone with a token that is trimmed and not empty. *)
Definition get_headers_ok (hdrs : headers_t) : Prop :=
  hdrs = [] \/
  exists tok,
    tok <> "" /\ trimmed tok /\ hdrs = [("X-aws-ec2-metadata-token", tok)].

(** A call that one run of [imds_get] for the attribute [p] may make. *)
Definition imds_call_ok (p : str) (ev : event) : Prop :=
  match ev with
  | EvPut u h _ => u = IMDS_TOKEN_URL /\ h = IMDS_HEADERS
  | EvGet u h _ => u = meta_data_url p /\ get_headers_ok h
  | _ => False
  end.

(** ** A sample environment inside AWS *)

(** The metadata service hands out a token and answers the four
    attributes; it answers 404 for anything else and 401 without a token. *)
Definition aws_get (u : str) (hdrs : headers_t) : result httpx_Response :=
  match hdrs with
  | [] => Ok (mk_httpx_Response 401 "")
  | _ :: _ =>
      if String.eqb u (meta_data_url "public-ipv4")
      then Ok (mk_httpx_Response 200 "54.233.10.20")
      else if String.eqb u (meta_data_url "local-ipv4")
      then Ok (mk_httpx_Response 200 "10.0.3.15")
      else if String.eqb u (meta_data_url "instance-id")
      then Ok (mk_httpx_Response 200 "i-0abc12")
      else if String.eqb u (meta_data_url "placement/availability-zone")
      then Ok (mk_httpx_Response 200 ("sa-east-1a" ++ LF)%string)
      else Ok (mk_httpx_Response 404 "")
  end.

Definition env_aws : Env :=
  mk_Env (fun _ _ _ => Ok (mk_httpx_Response 200 "AQAEAtoken"))
         (fun _ => aws_get)
         (env_gethostname env_unreachable) (env_gethostbyname env_unreachable)
         (env_perf_counter env_unreachable) (env_utcnow env_unreachable)
         (fun _ => 0).

(** The token PUT answers 200 with a text of white space. *)
Definition env_blank_token : Env :=
  mk_Env (fun _ _ _ => Ok (mk_httpx_Response 200 ("  " ++ LF)%string))
         (fun _ => aws_get)
         (env_gethostname env_unreachable) (env_gethostbyname env_unreachable)
         (env_perf_counter env_unreachable) (env_utcnow env_unreachable)
         (fun _ => 0).

Definition req_post_healthz : Request :=
  mk_Request [("host", "lb.example.com")] "POST"
             (mk_URL "http" (Some "lb.example.com") "/healthz")
             (Some (mk_Address "10.0.0.9" 41234)).

(** ** The handlers as tasks *)

(** The handlers are coroutines that an asyncio task runs. Two things can
    make such a run fail that the definitions above leave out:

    - [asyncio.CancelledError], which derives from [BaseException] alone,
      is delivered at an [await] that waits for the network (the PUT and
      the GET of [imds_get]) and passes [except Exception];
    - [request.url] is parsed on first use, and [urlsplit] raises
      [ValueError] for a Host header such as ["["]: every use of
      [request.url.scheme], [.hostname] or [.path] then raises.

    This module embeds [imds_get] and [root] again with both. It reuses
    the calls, the clocks and the fallback resolver from above; without
    cancellation and on a request whose URL parses, the two embeddings
    agree. In both, constructing and closing the [httpx.AsyncClient] are
    taken to succeed. *)
Module Task.

(** What derives from [BaseException] alone. *)
Inductive base_exn : Type := CancelledError.

Inductive outcome (A : Type) : Type :=
| Done (a : A)
| Exc (e : exn)         (* an [Exception] *)
| Base (b : base_exn).  (* passes [except Exception] *)
Arguments Done {A} a.
Arguments Exc {A} e.
Arguments Base {A} b.

(** The outside world, and whether the task is cancelled while the call
    made from a given history is awaited. *)
Record TaskEnv : Type := mk_TaskEnv {
  world : Env;
  cancel_at : trace -> bool
}.

Definition T (A : Type) : Type := TaskEnv -> trace -> outcome A * trace.

Definition ret {A} (a : A) : T A := fun _ t => (Done a, t).

Definition bind {A B} (m : T A) (k : A -> T B) : T B :=
  fun env t =>
    match m env t with
    | (Done a, t') => k a env t'
    | (Exc e, t') => (Exc e, t')
    | (Base b, t') => (Base b, t')
    end.

(** [try: body / except <catches>: handler], where [<catches>] is a class
    of [Exception]s: what derives from [BaseException] alone passes. *)
Definition try_except {A} (body : T A) (catches : exn -> bool)
    (handler : T A) : T A :=
  fun env t =>
    match body env t with
    | (Done a, t') => (Done a, t')
    | (Exc e, t') => if catches e then handler env t' else (Exc e, t')
    | (Base b, t') => (Base b, t')
    end.

(** A call that is not awaited: it cannot be cancelled. *)
Definition lift {A} (m : IO A) : T A :=
  fun env t =>
    match m (world env) t with
    | (Ok a, t') => (Done a, t')
    | (Raise e, t') => (Exc e, t')
    end.

(** [await m]: a cancellation delivered while the call is pending raises
    [CancelledError] in place of the call's outcome; the call has no
    outcome then and is not logged. *)
Definition await {A} (m : IO A) : T A :=
  fun env t =>
    if cancel_at env t then (Base CancelledError, t) else lift m env t.

Declare Scope task_scope.
Delimit Scope task_scope with task.
Notation "x <- c1 ;; c2" := (bind c1 (fun x => c2))
  (at level 100, c1 at next level, right associativity) : task_scope.
#[local] Open Scope task_scope.

Definition acquire_token : T (option str) :=
  try_except
    (r <- await (client_put IMDS_TOKEN_URL IMDS_HEADERS) ;;
     if status_code r =? 200 then ret (Some (strip (text r))) else ret None)
    isinstance_HTTPError
    (ret None).

Definition imds_get (path : str) : T (option str) :=
  try_except
    (tok <- acquire_token ;;
     r2 <- await (client_get (meta_data_url path) (token_headers tok)) ;;
     if status_code r2 =? 200 then ret (Some (strip (text r2))) else ret None)
    isinstance_Exception
    (ret None).

(** A request as the handler receives it: [url] is [None] when [urlsplit]
    rejects the URL that the framework builds from the Host header. *)
Record Request : Type := mk_Request {
  headers : headers_t;
  method : str;
  url : option URL;
  client : option Address
}.

(** [request.url.<component>]; the [ValueError] of [urlsplit] is one of
    the other subclasses of [Exception]. *)
Definition url_component {A} (f : URL -> A) (request : Request) : T A :=
  fun _ t =>
    match url request with
    | Some u => (Done (f u), t)
    | None => (Exc ExceptionOther, t)
    end.

Definition root (request : Request) : T Response :=
  t0 <- lift time_perf_counter ;;
  host <- (let fwd := py_or (headers_get "x-forwarded-host" (headers request))
                            (headers_get "host" (headers request)) in
           if truthy fwd then ret fwd
           else url_component url_hostname request) ;;
  scheme <- (match headers_get "x-forwarded-proto" (headers request) with
             | Some s => if str_truthy s then ret s
                         else url_component url_scheme request
             | None => url_component url_scheme request
             end) ;;
  public_ip <- imds_get "public-ipv4" ;;
  private_ip <- (v <- imds_get "local-ipv4" ;;
                 match v with
                 | Some s => if str_truthy s then ret s
                             else lift get_private_ip_fallback
                 | None => lift get_private_ip_fallback
                 end) ;;
  instance_id <- imds_get "instance-id" ;;
  az <- imds_get "placement/availability-zone" ;;
  t1 <- lift time_perf_counter ;;
  let ping_ms := FRound (FMul (FSub t1 t0) 1000) 2 in
  path <- url_component url_path request ;;
  let ip_cliente :=
    py_or (headers_get "x-forwarded-for" (headers request))
          (match client request with
           | Some a => Some (client_host a)
           | None => None
           end) in
  now_utc <- lift utcnow ;;
  now_brt <- lift utcnow ;;
  brt <- lift (astimezone now_brt (-3 * 3600)) ;;
  ret (JSONResponse
         (JObj
            [ ("ok", JBool true);
              ("mensagem", JStr mensagem);
              ("acesso",
               JObj [ ("dns_usado", json_of_opt host);
                      ("esquema", JStr scheme);
                      ("metodo", JStr (method request));
                      ("path", JStr path);
                      ("ip_cliente", json_of_opt ip_cliente) ]);
              ("instancia",
               JObj [ ("ip_publico_vm", JStr (py_or_str public_ip "indisponivel"));
                      ("ip_privado_vm", JStr private_ip);
                      ("instance_id", JStr (py_or_str instance_id "desconhecido"));
                      ("availability_zone", JStr (py_or_str az "desconhecida")) ]);
              ("ping_ms", JNum ping_ms);
              ("server_time_utc", JStr (isoformat now_utc ++ "Z")%string);
              ("server_time_brt", JStr (strftime_brt brt));
              ("version", JStr "1.0.0") ])
         200).

End Task.



(** The token step raised an [Exception] that the inner handler does not
    cover. *)
Definition token_step_fatal (out : result httpx_Response) : bool :=
  match out with
  | Ok _ => false
  | Raise e => negb (isinstance_HTTPError e)
  end.






(** ** Sample tasks and requests *)



(** Inside AWS; the task is cancelled while the first attribute GET is
    pending, that is once the history holds one call. *)
Definition task_cancelled_at_get : Task.TaskEnv :=
  Task.mk_TaskEnv env_aws (fun t => Nat.eqb (List.length t) 1).





(** * Properties *)

(** Case analysis on the answer of the environment to the call that the
    goal is stuck on. *)
Ltac case_env_get :=
  match goal with
  | |- context [env_get ?e ?h ?u ?hd] =>
      destruct (env_get e h u hd) as [?r2 | ?e2]
  end.

Ltac case_env_gethostbyname :=
  match goal with
  | |- context [env_gethostbyname ?e ?h ?n] =>
      destruct (env_gethostbyname e h n)
  end.

(** ** Running the metadata fetch helper *)

Lemma imds_get_run (path : str) (env : Env) (t : trace) :
  imds_get path env t =
    match env_put env t IMDS_TOKEN_URL IMDS_HEADERS with
    | Ok r => get_stage path (text_if_200 (Ok r)) env (t ++ [put_event env t])
    | Raise e =>
        if isinstance_HTTPError e
        then get_stage path None env (t ++ [put_event env t])
        else (Ok None, t ++ [put_event env t])
    end.
Proof.
  unfold imds_get, acquire_token, try_except, bind, client_put, client_get,
    perform, get_stage, put_event, ret.
  destruct (env_put env t IMDS_TOKEN_URL IMDS_HEADERS) as [r | e]; cbn.
  - destruct (status_code r =? 200); cbn;
      (case_env_get; cbn; [destruct (status_code _ =? 200) |]); reflexivity.
  - destruct (isinstance_HTTPError e); cbn; [| reflexivity].
    case_env_get; cbn; [destruct (status_code _ =? 200) |]; reflexivity.
Qed.

Lemma imds_get_eta (path : str) (env : Env) (t : trace) :
  imds_get path env t = (Ok (imds_val path env t), imds_trace path env t).
Proof.
  unfold imds_val, imds_trace. rewrite imds_get_run. unfold get_stage.
  destruct (env_put env t IMDS_TOKEN_URL IMDS_HEADERS) as [r | e];
    [| destruct (isinstance_HTTPError e)]; reflexivity.
Qed.

(** ** Running the fallback resolver and the root handler *)

Lemma fallback_eta (env : Env) (t : trace) :
  get_private_ip_fallback env t = (Ok (fallback_val env t), fallback_trace env t).
Proof.
  unfold fallback_val, fallback_trace, get_private_ip_fallback, try_except,
    bind, socket_gethostname, socket_gethostbyname, perform, ret.
  destruct (env_gethostname env t) as [h | e]; cbn; [| reflexivity].
  case_env_gethostbyname; reflexivity.
Qed.

Lemma fallback_val_resolved (env : Env) (t : trace) :
  fallback_val env t = resolved_or_desconhecido env t.
Proof.
  unfold fallback_val, resolved_or_desconhecido, get_private_ip_fallback,
    try_except, bind, socket_gethostname, socket_gethostbyname, perform, ret.
  destruct (env_gethostname env t) as [h | e]; cbn; [| reflexivity].
  case_env_gethostbyname; reflexivity.
Qed.

Lemma root_run (request : Request) (env : Env) (t : trace) :
  root request env t =
    (Ok (JSONResponse (root_payload request env t) 200), t_brt env t).
Proof.
  unfold root, bind, time_perf_counter, utcnow, astimezone, ret.
  cbv beta iota zeta.
  rewrite (imds_get_eta "public-ipv4"). cbv beta iota zeta.
  rewrite (imds_get_eta "local-ipv4"). cbv beta iota zeta.
  unfold root_payload, brt_datetime, instancia_of, acesso_of, t_brt, t_utc,
    t_ping, t_az, az_fetched, t_instance, instance_id_fetched, t_private,
    private_ip_resolved, local_ip_fetched, t_local, t_public,
    public_ip_fetched, t_start.
  destruct (imds_val "local-ipv4" env _) as [s |] eqn:Hl; cbn [truthy].
  - destruct (str_truthy s) eqn:Hs; cbv beta iota zeta.
    + rewrite (imds_get_eta "instance-id"). cbv beta iota zeta.
      rewrite (imds_get_eta "placement/availability-zone").
      cbv beta iota zeta. cbn [wall_us tzinfo]. reflexivity.
    + rewrite fallback_eta. cbv beta iota zeta.
      rewrite (imds_get_eta "instance-id"). cbv beta iota zeta.
      rewrite (imds_get_eta "placement/availability-zone").
      cbv beta iota zeta. cbn [wall_us tzinfo]. reflexivity.
  - rewrite fallback_eta. cbv beta iota zeta.
    rewrite (imds_get_eta "instance-id"). cbv beta iota zeta.
    rewrite (imds_get_eta "placement/availability-zone").
    cbv beta iota zeta. cbn [wall_us tzinfo]. reflexivity.
Qed.

(** ** The diagnostic root endpoint and the router *)

(** C1, as amended. The root route is registered for GET alone: a request
    to [/] is answered by the root handler, with status 200 and its JSON
    payload, when the method is GET; with any other method the router
    answers 405 itself and the handler does not run. *)
Theorem root_route_serves_get_only :
  forall (request : Request) (env : Env) (t : trace),
    url_path (url request) = "/" ->
    app request env t =
      if String.eqb (method request) "GET"
      then (Ok (JSONResponse (root_payload request env t) 200), t_brt env t)
      else (Ok method_not_allowed, t).
Proof.
  intros request env t Hpath.
  unfold app, routes. cbn [route_request].
  unfold matches at 1. cbn [route_path route_methods app_get].
  rewrite Hpath. cbn [String.eqb Ascii.eqb Bool.eqb].
  unfold matches. cbn [route_path route_methods app_get endpoint existsb].
  rewrite Hpath. cbn [String.eqb Ascii.eqb Bool.eqb].
  rewrite orb_false_r.
  destruct (String.eqb (method request) "GET").
  - apply root_run.
  - reflexivity.
Qed.

(** A GET of [/] on a host outside AWS. *)
Lemma root_route_serves_get_only_witness :
  exists payload t',
    app req_get_root env_unreachable [] = (Ok (JSONResponse payload 200), t').
Proof.
  eexists. eexists.
  exact (root_route_serves_get_only req_get_root env_unreachable [] eq_refl).
Defined.

(** C1, the claim as stated fails: a POST to [/] is answered 405 by the
    router, not 200 by the handler. *)
Lemma root_rejects_post :
  url_path (url req_post_root) = "/" /\
  method req_post_root = "POST" /\
  app req_post_root env_unreachable [] =
    (Ok (JSONResponse (JObj [("detail", JStr "Method Not Allowed")]) 405), []).
Proof.
  repeat split.
Qed.

(** ** The token step of the metadata fetch helper *)

(** C3, as amended. When the token PUT answers with a status other than
    200 or raises an [httpx.HTTPError] (timeout, network error), the helper
    goes on without a token: it issues the attribute GET with no token
    header right after the PUT, raises nothing, and returns what that GET
    alone decides. When the PUT raises an [Exception] of any other class,
    the outer handler takes it: the helper returns [None] and the PUT is
    the only call it made. *)
Theorem imds_get_token_failure_goes_on_without_token :
  forall (path : str) (env : Env) (t : trace),
    (token_step_failed (env_put env t IMDS_TOKEN_URL IMDS_HEADERS) ->
     imds_get path env t =
       (Ok (text_if_200
              (env_get env (t ++ [put_event env t]) (meta_data_url path) [])),
        t ++ [put_event env t;
              EvGet (meta_data_url path) []
                (env_get env (t ++ [put_event env t]) (meta_data_url path) [])]))
    /\
    (forall e : exn,
        env_put env t IMDS_TOKEN_URL IMDS_HEADERS = Raise e ->
        isinstance_HTTPError e = false ->
        imds_get path env t = (Ok None, t ++ [put_event env t])).
Proof.
  intros path env t. rewrite imds_get_run. unfold get_stage. split.
  - intros Hfail.
    destruct (env_put env t IMDS_TOKEN_URL IMDS_HEADERS) as [r | e];
      cbn in Hfail.
    + cbn [text_if_200].
      destruct (Z.eqb_spec (status_code r) 200) as [H200 | _];
        [contradiction |].
      cbn [token_headers]. rewrite <- app_assoc. reflexivity.
    + rewrite Hfail. cbn [token_headers]. rewrite <- app_assoc. reflexivity.
  - intros e He Hother. rewrite He, Hother. reflexivity.
Qed.

(** The token PUT times out and the GET answers: the value is fetched.
    The token PUT raises another exception: nothing is fetched. *)
Lemma imds_get_token_failure_goes_on_without_token_witness :
  imds_get "instance-id" env_token_timeout [] =
    (Ok (Some "i-0abc12"),
     [EvPut IMDS_TOKEN_URL IMDS_HEADERS (Raise TimeoutException);
      EvGet (meta_data_url "instance-id") []
        (Ok (mk_httpx_Response 200 (" i-0abc12" ++ LF)%string))]) /\
  imds_get "instance-id" env_token_other_exception [] =
    (Ok None, [EvPut IMDS_TOKEN_URL IMDS_HEADERS (Raise ExceptionOther)]).
Proof.
  split.
  - exact (proj1 (imds_get_token_failure_goes_on_without_token
                    "instance-id" env_token_timeout []) eq_refl).
  - exact (proj2 (imds_get_token_failure_goes_on_without_token
                    "instance-id" env_token_other_exception [])
                 ExceptionOther eq_refl eq_refl).
Defined.

(** C3, the claim as stated fails: when the token PUT raises an exception
    that is no [httpx.HTTPError], the outer handler takes it; the helper
    returns [None] and the log holds the PUT alone, although the GET would
    have answered 200. *)
Lemma imds_get_token_other_exception_skips_get :
  env_put env_token_other_exception [] IMDS_TOKEN_URL IMDS_HEADERS
    = Raise ExceptionOther /\
  env_get env_token_other_exception
      [EvPut IMDS_TOKEN_URL IMDS_HEADERS (Raise ExceptionOther)]
      (meta_data_url "instance-id") []
    = Ok (mk_httpx_Response 200 "i-0abc12") /\
  imds_get "instance-id" env_token_other_exception [] =
    (Ok None, [EvPut IMDS_TOKEN_URL IMDS_HEADERS (Raise ExceptionOther)]).
Proof.
  repeat split.
Qed.

(** ** The access block of the payload *)

(** C5, as amended. For every request the root handler serves, the
    [ip_cliente] key is always present in [acesso]: it holds the
    forwarded-for header's value when that header is there and not empty;
    otherwise the peer address of the connection; and JSON null when there
    is no peer address either. *)
Theorem ip_cliente_forwarded_for_else_peer :
  forall (request : Request) (env : Env) (t : trace),
  exists payload t',
    root request env t = (Ok (JSONResponse payload 200), t') /\
    json_at ["acesso"; "ip_cliente"] payload =
      Some (match headers_get "x-forwarded-for" (headers request) with
            | Some v => if str_truthy v then JStr v else peer_address request
            | None => peer_address request
            end).
Proof.
  intros request env t. exists (root_payload request env t), (t_brt env t).
  split; [apply root_run |].
  cbn. unfold py_or, peer_address.
  destruct (headers_get "x-forwarded-for" (headers request)) as [v |]; cbn.
  - destruct (str_truthy v); [reflexivity |].
    destruct (client request); reflexivity.
  - destruct (client request); reflexivity.
Qed.

(** C5, the claim as stated fails twice: a forwarded-for header with an
    empty value is passed over for the peer address, and with neither a
    header nor a peer address the key is there, holding null. *)
Lemma ip_cliente_empty_header_and_null :
  headers_get "x-forwarded-for" (headers req_empty_forwarded) = Some "" /\
  field ["acesso"; "ip_cliente"] (root req_empty_forwarded env_unreachable [])
    = Some (JStr "10.0.0.9") /\
  headers_get "x-forwarded-for" (headers req_no_peer) = None /\
  client req_no_peer = None /\
  field ["acesso"; "ip_cliente"] (root req_no_peer env_unreachable [])
    = Some JNull.
Proof.
  repeat split.
Qed.

(** C6, as amended. For every request the root handler serves:
    [dns_usado] is the forwarded-host header's value when that header is
    there and not empty, otherwise the host of the raw request;
    [esquema] is the forwarded-proto header's value when that header is
    there and not empty, otherwise the scheme of the request URL. *)
Theorem dns_usado_esquema_forwarded_else_raw :
  forall (request : Request) (env : Env) (t : trace),
  exists payload t',
    root request env t = (Ok (JSONResponse payload 200), t') /\
    json_at ["acesso"; "dns_usado"] payload =
      Some (match headers_get "x-forwarded-host" (headers request) with
            | Some v => if str_truthy v then JStr v else raw_host request
            | None => raw_host request
            end) /\
    json_at ["acesso"; "esquema"] payload =
      Some (match headers_get "x-forwarded-proto" (headers request) with
            | Some v => if str_truthy v then JStr v
                        else JStr (url_scheme (url request))
            | None => JStr (url_scheme (url request))
            end).
Proof.
  intros request env t. exists (root_payload request env t), (t_brt env t).
  split; [apply root_run |].
  cbn. unfold py_or, py_or_str, raw_host, py_or. split.
  - destruct (headers_get "x-forwarded-host" (headers request)) as [v |]; cbn.
    + destruct (str_truthy v) eqn:Hv; cbn; rewrite ?Hv; reflexivity.
    + reflexivity.
  - destruct (headers_get "x-forwarded-proto" (headers request)) as [v |];
      [destruct (str_truthy v) |]; reflexivity.
Qed.

(** C6, the claim as stated fails: forwarded-host and forwarded-proto
    headers that are there with empty values are passed over for the raw
    request's host and scheme. *)
Lemma forwarded_empty_values_passed_over :
  headers_get "x-forwarded-host" (headers req_empty_forwarded) = Some "" /\
  field ["acesso"; "dns_usado"] (root req_empty_forwarded env_unreachable [])
    = Some (JStr "lb.example.com") /\
  headers_get "x-forwarded-proto" (headers req_empty_forwarded) = Some "" /\
  field ["acesso"; "esquema"] (root req_empty_forwarded env_unreachable [])
    = Some (JStr "http").
Proof.
  repeat split.
Qed.

(** ** The liveness endpoint *)

(** C7. Whatever the request and whatever the state of the outside world
    (metadata service, resolver, clocks), the liveness handler returns
    status 200 with the plain text [ok] and leaves the history as it found
    it: it makes no external call. The router hands every GET of
    [/healthz] to it. *)
Theorem healthz_always_200_ok :
  forall (request : Request) (env : Env) (t : trace),
    healthz env t = (Ok (PlainTextResponse "ok" 200), t) /\
    (url_path (url request) = "/healthz" ->
     method request = "GET" ->
     app request env t = (Ok (PlainTextResponse "ok" 200), t)).
Proof.
  intros request env t. split; [reflexivity |].
  intros Hpath Hmeth.
  unfold app, routes. cbn [route_request].
  unfold matches at 1. cbn [route_path route_methods app_get existsb].
  rewrite Hpath, Hmeth. reflexivity.
Qed.

(** A GET of [/healthz] on a host outside AWS. *)
Lemma healthz_always_200_ok_witness :
  app req_get_healthz env_unreachable [] = (Ok (PlainTextResponse "ok" 200), []).
Proof.
  exact (proj2 (healthz_always_200_ok req_get_healthz env_unreachable [])
               eq_refl eq_refl).
Defined.

(** ** Blank answers of the metadata service *)

Lemma imds_val_blank (env : Env) (p : str) (t : trace) :
  answers_blank_200 env p ->
  imds_val p env t = Some "" \/ imds_val p env t = None.
Proof.
  intros Hblank. unfold imds_val. rewrite imds_get_run. unfold get_stage.
  assert (Hg : forall t1 hdrs,
             text_if_200 (env_get env t1 (meta_data_url p) hdrs) = Some "").
  { intros t1 hdrs. destruct (Hblank t1 hdrs) as (r & Hr & Hs & Hb).
    rewrite Hr. cbn. rewrite Hs, Hb. reflexivity. }
  destruct (env_put env t IMDS_TOKEN_URL IMDS_HEADERS) as [r | e].
  - left. cbn [fst]. apply Hg.
  - destruct (isinstance_HTTPError e); cbn [fst]; [left; apply Hg | right; reflexivity].
Qed.

Lemma imds_trace_extends (p : str) (env : Env) (t : trace) :
  exists evs, imds_trace p env t = t ++ evs.
Proof.
  unfold imds_trace. rewrite imds_get_run. unfold get_stage.
  destruct (env_put env t IMDS_TOKEN_URL IMDS_HEADERS) as [r | e];
    [| destruct (isinstance_HTTPError e)]; cbn [snd];
    rewrite <- ?app_assoc; eexists; reflexivity.
Qed.

Lemma fallback_trace_starts_with_gethostname (env : Env) (t : trace) :
  exists evs,
    fallback_trace env t = t ++ EvGetHostName (env_gethostname env t) :: evs.
Proof.
  unfold fallback_trace, get_private_ip_fallback, try_except, bind,
    socket_gethostname, socket_gethostbyname, perform, ret.
  destruct (env_gethostname env t) as [h | e]; cbn.
  - case_env_gethostbyname; cbn; rewrite <- app_assoc; eexists; reflexivity.
  - eexists; reflexivity.
Qed.

(** C10. A metadata GET that answers status 200 with a body that trims to
    the empty string leaves the payload as an absent value does, field by
    field: [ip_publico_vm] is [indisponivel]; for [ip_privado_vm] the
    fallback resolver is called (its [gethostname] call is logged right
    after the fetch) and its result is used; [instance_id] is
    [desconhecido]; [availability_zone] is [desconhecida]. *)
Theorem blank_200_body_treated_as_absent :
  forall (request : Request) (env : Env) (t : trace),
  exists payload t',
    root request env t = (Ok (JSONResponse payload 200), t') /\
    (answers_blank_200 env "public-ipv4" ->
     json_at ["instancia"; "ip_publico_vm"] payload
       = Some (JStr "indisponivel")) /\
    (answers_blank_200 env "local-ipv4" ->
     json_at ["instancia"; "ip_privado_vm"] payload
       = Some (JStr (resolved_or_desconhecido env (t_local env t))) /\
     exists evs,
       t' = t_local env t
              ++ EvGetHostName (env_gethostname env (t_local env t)) :: evs) /\
    (answers_blank_200 env "instance-id" ->
     json_at ["instancia"; "instance_id"] payload
       = Some (JStr "desconhecido")) /\
    (answers_blank_200 env "placement/availability-zone" ->
     json_at ["instancia"; "availability_zone"] payload
       = Some (JStr "desconhecida")).
Proof.
  intros request env t.
  exists (root_payload request env t), (t_brt env t).
  split; [apply root_run |].
  cbn [json_at json_get root_payload instancia_of assoc String.eqb Ascii.eqb
       Bool.eqb].
  repeat split.
  - intros H. unfold public_ip_fetched.
    destruct (imds_val_blank env _ (t_start env t) H) as [-> | ->]; reflexivity.
  - unfold private_ip_resolved, local_ip_fetched.
    destruct (imds_val_blank env _ (t_public env t) H) as [-> | ->];
      cbn; rewrite fallback_val_resolved; reflexivity.
  - unfold t_brt, t_utc, t_ping, t_az, t_instance, t_private, local_ip_fetched.
    assert (Hfalsy : truthy (imds_val "local-ipv4" env (t_public env t)) = false).
    { destruct (imds_val_blank env _ (t_public env t) H) as [-> | ->];
        reflexivity. }
    rewrite Hfalsy.
    destruct (fallback_trace_starts_with_gethostname env (t_local env t))
      as [evs0 ->].
    destruct (imds_trace_extends "instance-id" env
                (t_local env t
                   ++ EvGetHostName (env_gethostname env (t_local env t)) :: evs0))
      as [evs1 ->].
    match goal with
    | |- context [imds_trace "placement/availability-zone" env ?h] =>
        destruct (imds_trace_extends "placement/availability-zone" env h)
          as [evs2 ->]
    end.
    rewrite <- !app_assoc. cbn [app]. eexists. reflexivity.
  - intros H. unfold instance_id_fetched.
    destruct (imds_val_blank env _ (t_private env t) H) as [-> | ->]; reflexivity.
  - intros H. unfold az_fetched.
    destruct (imds_val_blank env _ (t_instance env t) H) as [-> | ->]; reflexivity.
Qed.

(** A metadata service that answers every GET with white space. *)
Lemma blank_200_body_treated_as_absent_witness :
  exists payload t',
    root req_get_root env_blank [] = (Ok (JSONResponse payload 200), t') /\
    json_at ["instancia"; "ip_publico_vm"] payload
      = Some (JStr "indisponivel") /\
    json_at ["instancia"; "ip_privado_vm"] payload = Some (JStr "10.0.0.7") /\
    json_at ["instancia"; "instance_id"] payload
      = Some (JStr "desconhecido") /\
    json_at ["instancia"; "availability_zone"] payload
      = Some (JStr "desconhecida").
Proof.
  destruct (blank_200_body_treated_as_absent req_get_root env_blank [])
    as (payload & t' & Hrun & Hpub & Hloc & Hid & Haz).
  assert (Hblank : forall p, answers_blank_200 env_blank p).
  { intros p t hdrs. eexists. split; [reflexivity |]. split; reflexivity. }
  exists payload, t'. split; [exact Hrun |].
  split; [exact (Hpub (Hblank _)) |].
  split; [destruct (Hloc (Hblank _)) as [Hv _]; rewrite Hv; reflexivity |].
  split; [exact (Hid (Hblank _)) | exact (Haz (Hblank _))].
Defined.

(** ** The UTC-3 timestamp *)

(** C4, the code at the failing input. At 12:00:00 UTC on 2024-01-01 a
    host whose local time zone is UTC renders [server_time_brt] as
    09:00:00 AM, the instant of [server_time_utc] moved by minus three
    hours; a host whose local time zone is UTC-3 renders 12:00:00 PM for
    the same instant, under the same [UTC-3] label: the naive reading of
    [utcnow()] is taken for local time by [astimezone]. *)
Theorem server_time_brt_follows_host_time_zone :
  field ["server_time_utc"] (root req_get_root env_unreachable [])
    = Some (JStr "2024-01-01T12:00:00Z") /\
  field ["server_time_brt"] (root req_get_root env_unreachable [])
    = Some (JStr "01/01/2024 09:00:00 AM UTC-3") /\
  field ["server_time_utc"] (root req_get_root env_host_utc_minus_3 [])
    = Some (JStr "2024-01-01T12:00:00Z") /\
  field ["server_time_brt"] (root req_get_root env_host_utc_minus_3 [])
    = Some (JStr "01/01/2024 12:00:00 PM UTC-3").
Proof.
  repeat split; vm_compute; reflexivity.
Qed.

(** ** Further properties of the helpers *)

(** X1. The fallback resolver never raises: it returns the address that
    [gethostbyname(gethostname())] resolves, or [desconhecido] when either
    socket call raises. *)
Theorem get_private_ip_fallback_never_raises :
  forall (env : Env) (t : trace),
  exists evs,
    get_private_ip_fallback env t
      = (Ok (resolved_or_desconhecido env t),
         t ++ EvGetHostName (env_gethostname env t) :: evs).
Proof.
  intros env t. rewrite fallback_eta, fallback_val_resolved.
  destruct (fallback_trace_starts_with_gethostname env t) as [evs ->].
  exists evs. reflexivity.
Qed.

(** X2. No retries: a call of [imds_get] makes one token PUT and at most
    one attribute GET, in that order, and nothing else. *)
Theorem imds_get_single_attempt :
  forall (path : str) (env : Env) (t : trace),
  exists v,
    imds_get path env t = (Ok v, t ++ [put_event env t]) \/
    exists hdrs out,
      imds_get path env t
        = (Ok v, t ++ [put_event env t; EvGet (meta_data_url path) hdrs out]).
Proof.
  intros path env t. rewrite imds_get_run. unfold get_stage.
  destruct (env_put env t IMDS_TOKEN_URL IMDS_HEADERS) as [r | e];
    [| destruct (isinstance_HTTPError e)];
    eexists; rewrite <- ?app_assoc; cbn [app];
    solve [left; reflexivity | right; eexists; eexists; reflexivity].
Qed.

(** X3. When the token PUT answers 200 with a text that does not trim to
    the empty string, the attribute GET carries that trimmed text in the
    [X-aws-ec2-metadata-token] header, and no other header. *)
Theorem imds_get_sends_token_when_obtained :
  forall (path : str) (env : Env) (t : trace) (r : httpx_Response),
    env_put env t IMDS_TOKEN_URL IMDS_HEADERS = Ok r ->
    status_code r = 200 ->
    strip (text r) <> "" ->
    exists out,
      imds_get path env t
        = (Ok (text_if_200 out),
           t ++ [put_event env t;
                 EvGet (meta_data_url path)
                   [("X-aws-ec2-metadata-token", strip (text r))] out]).
Proof.
  intros path env t r Hput Hs Htok. rewrite imds_get_run, Hput.
  unfold get_stage. cbn [text_if_200]. rewrite Hs. cbn [Z.eqb Pos.eqb].
  unfold token_headers.
  destruct (strip (text r)) as [| c s] eqn:Hstrip; [contradiction |].
  cbn [str_truthy]. rewrite <- app_assoc. eexists. reflexivity.
Qed.

(** The service hands out the token [AQAEAtoken]. *)
Lemma imds_get_sends_token_when_obtained_witness :
  exists out,
    imds_get "instance-id" env_blank []
      = (Ok (text_if_200 out),
         [put_event env_blank [];
          EvGet (meta_data_url "instance-id")
            [("X-aws-ec2-metadata-token", "AQAEAtoken")] out]).
Proof.
  refine (imds_get_sends_token_when_obtained "instance-id" env_blank []
            (mk_httpx_Response 200 "AQAEAtoken") eq_refl eq_refl _).
  discriminate.
Defined.

(** X4. [server_time_brt] renders the second clock reading of the run
    moved by minus the host's local UTC offset and by minus three hours. *)
Theorem server_time_brt_shifted_by_host_offset :
  forall (request : Request) (env : Env) (t : trace),
    field ["server_time_brt"] (root request env t)
      = Some (JStr (strftime_brt
           (mk_datetime
              (env_utcnow env (t_utc env t)
               - env_local_gmtoff env (env_utcnow env (t_utc env t) / 1000000)
                 * 1000000
               - 10800000000)
              (Some (-10800))))).
Proof.
  intros request env t. unfold field, content_of. rewrite root_run.
  reflexivity.
Qed.

(** X5. [ip_privado_vm] is the fetched [local-ipv4] value when there is
    one and it is not empty, and the fallback resolver's result otherwise. *)
Theorem ip_privado_vm_metadata_else_fallback :
  forall (request : Request) (env : Env) (t : trace),
    field ["instancia"; "ip_privado_vm"] (root request env t)
      = Some (JStr (match local_ip_fetched env t with
                    | Some s => if str_truthy s then s
                                else resolved_or_desconhecido env (t_local env t)
                    | None => resolved_or_desconhecido env (t_local env t)
                    end)).
Proof.
  intros request env t. unfold field, content_of. rewrite root_run.
  cbn. unfold private_ip_resolved. rewrite fallback_val_resolved.
  reflexivity.
Qed.

(** ** The calls a run logs *)

Lemma imds_trace_segment (p : str) (env : Env) (t : trace) :
  exists evs, imds_trace p env t = t ++ evs /\ imds_segment p evs.
Proof.
  unfold imds_trace, imds_segment. rewrite imds_get_run. unfold get_stage, put_event.
  destruct (env_put env t IMDS_TOKEN_URL IMDS_HEADERS) as [r | e];
    [| destruct (isinstance_HTTPError e)]; cbn [snd];
    rewrite <- ?app_assoc; cbn [app]; eexists; (split; [reflexivity |]);
    eexists; solve [left; reflexivity | right; eexists; eexists; reflexivity].
Qed.

Lemma fallback_trace_segment (env : Env) (t : trace) :
  exists evs, fallback_trace env t = t ++ evs /\ fallback_segment evs.
Proof.
  unfold fallback_trace, fallback_segment, get_private_ip_fallback, try_except,
    bind, socket_gethostname, socket_gethostbyname, perform, ret.
  destruct (env_gethostname env t) as [h | e]; cbn.
  - case_env_gethostbyname; cbn; rewrite <- app_assoc; cbn [app];
      eexists; (split; [reflexivity |]); right; eexists; eexists; reflexivity.
  - eexists; split; [reflexivity |]. left. eexists; reflexivity.
Qed.

(** The calls of a run of [root], segment by segment. *)
Lemma root_events (env : Env) (t : trace) :
  exists e1 e2 f e3 e4,
    t_brt env t =
      t ++ EvPerfCounter (env_perf_counter env t)
        :: (e1 ++ e2 ++ f ++ e3 ++ e4)
        ++ [EvPerfCounter (env_perf_counter env (t_az env t));
            EvUtcNow (env_utcnow env (t_ping env t));
            EvUtcNow (env_utcnow env (t_utc env t))] /\
    (t_public env t = t_start env t ++ e1 /\
     t_local env t = t_public env t ++ e2 /\
     t_private env t = t_local env t ++ f /\
     t_instance env t = t_private env t ++ e3 /\
     t_az env t = t_instance env t ++ e4) /\
    imds_segment "public-ipv4" e1 /\
    imds_segment "local-ipv4" e2 /\
    (if truthy (local_ip_fetched env t) then f = [] else fallback_segment f) /\
    imds_segment "instance-id" e3 /\
    imds_segment "placement/availability-zone" e4.
Proof.
  destruct (imds_trace_segment "public-ipv4" env (t_start env t))
    as (e1 & H1 & S1).
  destruct (imds_trace_segment "local-ipv4" env (t_public env t))
    as (e2 & H2 & S2).
  assert (Hf : exists f, t_private env t = t_local env t ++ f /\
            if truthy (local_ip_fetched env t) then f = []
            else fallback_segment f).
  { unfold t_private. destruct (truthy (local_ip_fetched env t)).
    - exists []. rewrite app_nil_r. split; reflexivity.
    - apply fallback_trace_segment. }
  destruct Hf as (f & Hf & Sf).
  destruct (imds_trace_segment "instance-id" env (t_private env t))
    as (e3 & H3 & S3).
  destruct (imds_trace_segment "placement/availability-zone" env
              (t_instance env t)) as (e4 & H4 & S4).
  exists e1, e2, f, e3, e4. split; [| repeat split; assumption].
  unfold t_brt at 1, t_utc at 1, t_ping at 1, t_az at 1. rewrite H4.
  unfold t_instance at 1. rewrite H3, Hf.
  unfold t_local at 1. rewrite H2. unfold t_public at 1. rewrite H1.
  unfold t_start. rewrite <- !app_assoc. reflexivity.
Qed.

Lemma count_app (f : event -> bool) (a b : trace) :
  count f (a ++ b) = (count f a + count f b)%nat.
Proof.
  unfold count. rewrite filter_app, length_app. reflexivity.
Qed.

Lemma imds_segment_counts (p : str) (evs : trace) :
  imds_segment p evs ->
  count is_put evs = 1%nat /\ (count is_get evs <= 1)%nat /\
  count is_socket evs = 0%nat /\ count is_clock evs = 0%nat.
Proof.
  intros (pout & [-> | (hdrs & gout & ->)]); cbn; repeat split; lia.
Qed.

Lemma fallback_segment_counts (evs : trace) :
  fallback_segment evs ->
  count is_put evs = 0%nat /\ count is_get evs = 0%nat /\
  (count is_socket evs <= 2)%nat /\ count is_clock evs = 0%nat.
Proof.
  intros [(e & ->) | (h & out & ->)]; cbn; repeat split; lia.
Qed.

Lemma imds_segment_targets (p : str) (evs : trace) :
  imds_segment p evs -> forallb targets_imds evs = true.
Proof.
  intros (pout & [-> | (hdrs & gout & ->)]); reflexivity.
Qed.

(** X6. One request to the root handler costs exactly four token PUTs
    (a token is never kept from one fetch to the next), at most four
    attribute GETs, at most two socket calls and four clock reads. *)
Theorem root_calls_are_bounded :
  forall (request : Request) (env : Env) (t : trace),
  exists evs,
    snd (root request env t) = t ++ evs /\
    count is_put evs = 4%nat /\
    (count is_get evs <= 4)%nat /\
    (count is_socket evs <= 2)%nat /\
    count is_clock evs = 4%nat.
Proof.
  intros request env t. rewrite root_run. cbn [snd].
  destruct (root_events env t)
    as (e1 & e2 & f & e3 & e4 & -> & _ & S1 & S2 & Sf & S3 & S4).
  eexists. split; [reflexivity |].
  apply imds_segment_counts in S1, S2, S3, S4.
  assert (Hf : count is_put f = 0%nat /\ count is_get f = 0%nat /\
               (count is_socket f <= 2)%nat /\ count is_clock f = 0%nat).
  { destruct (truthy (local_ip_fetched env t)).
    - subst f. cbn. repeat split; lia.
    - apply fallback_segment_counts, Sf. }
  change (EvPerfCounter (env_perf_counter env t)
            :: (e1 ++ e2 ++ f ++ e3 ++ e4) ++ ?tl)
    with ([EvPerfCounter (env_perf_counter env t)]
            ++ (e1 ++ e2 ++ f ++ e3 ++ e4) ++ tl).
  rewrite !count_app. cbn [count filter is_put is_get is_socket is_clock length].
  lia.
Qed.

(** X7. Every HTTP call of a request to the root handler goes to the
    metadata address [http://169.254.169.254/latest]: no other host is
    ever contacted over HTTP. *)
Theorem root_http_calls_target_metadata_address :
  forall (request : Request) (env : Env) (t : trace),
  exists evs,
    snd (root request env t) = t ++ evs /\
    forallb targets_imds evs = true.
Proof.
  intros request env t. rewrite root_run. cbn [snd].
  destruct (root_events env t)
    as (e1 & e2 & f & e3 & e4 & -> & _ & S1 & S2 & Sf & S3 & S4).
  eexists. split; [reflexivity |].
  apply imds_segment_targets in S1, S2, S3, S4.
  assert (Hf : forallb targets_imds f = true).
  { destruct (truthy (local_ip_fetched env t)).
    - subst f. reflexivity.
    - destruct Sf as [(e & ->) | (h & out & ->)]; reflexivity. }
  cbn [forallb targets_imds andb].
  rewrite !forallb_app, S1, S2, Hf, S3, S4. reflexivity.
Qed.

(** X8. What the root handler asks of the outside world does not depend
    on the request: two requests served from the same history log the
    same calls and get the same [instancia] block; and the [acesso] block
    depends on the request alone, not on the environment. *)
Theorem root_calls_independent_of_request :
  forall (r1 r2 : Request) (env env' : Env) (t t' : trace),
    snd (root r1 env t) = snd (root r2 env t) /\
    field ["instancia"] (root r1 env t) = field ["instancia"] (root r2 env t) /\
    field ["acesso"] (root r1 env t) = field ["acesso"] (root r1 env' t').
Proof.
  intros r1 r2 env env' t t'. unfold field, content_of.
  rewrite !root_run. repeat split.
Qed.

(** X9. When the [local-ipv4] fetch gives a value that is not empty, the
    fallback resolver is not called (the run logs no socket call) and
    [ip_privado_vm] is that value. *)
Theorem root_resolver_not_called_when_fetched :
  forall (request : Request) (env : Env) (t : trace) (s : str),
    local_ip_fetched env t = Some s ->
    s <> "" ->
    exists evs,
      snd (root request env t) = t ++ evs /\
      count is_socket evs = 0%nat /\
      field ["instancia"; "ip_privado_vm"] (root request env t)
        = Some (JStr s).
Proof.
  intros request env t s Hs Hne.
  assert (Ht : str_truthy s = true) by (destruct s; [contradiction | reflexivity]).
  unfold field, content_of. rewrite root_run. cbn [snd fst].
  destruct (root_events env t)
    as (e1 & e2 & f & e3 & e4 & -> & _ & S1 & S2 & Sf & S3 & S4).
  rewrite Hs in Sf. cbn [truthy] in Sf. rewrite Ht in Sf. subst f.
  eexists. split; [reflexivity |]. split.
  - apply imds_segment_counts in S1, S2, S3, S4.
    change (EvPerfCounter (env_perf_counter env t)
              :: (e1 ++ e2 ++ [] ++ e3 ++ e4) ++ ?tl)
      with ([EvPerfCounter (env_perf_counter env t)]
              ++ (e1 ++ e2 ++ [] ++ e3 ++ e4) ++ tl).
    rewrite !count_app. cbn [count filter is_socket length]. lia.
  - cbn. unfold private_ip_resolved. rewrite Hs, Ht. reflexivity.
Qed.

(** Inside AWS the fetch gives 10.0.3.15. *)
Lemma root_resolver_not_called_when_fetched_witness :
  exists evs,
    snd (root req_get_root env_aws []) = [] ++ evs /\
    count is_socket evs = 0%nat /\
    field ["instancia"; "ip_privado_vm"] (root req_get_root env_aws [])
      = Some (JStr "10.0.3.15").
Proof.
  refine (root_resolver_not_called_when_fetched
            req_get_root env_aws [] "10.0.3.15" eq_refl _).
  discriminate.
Defined.

(** X10. The two readings behind [ping_ms] bracket the work of the
    request: the first is the first call of the run, the second comes
    after every metadata and resolver call and before the two wall-clock
    reads, and no other clock is read in between. *)
Theorem root_ping_brackets_the_fetches :
  forall (request : Request) (env : Env) (t : trace),
  exists a b u1 u2 mid,
    snd (root request env t)
      = t ++ EvPerfCounter a :: mid
          ++ [EvPerfCounter b; EvUtcNow u1; EvUtcNow u2] /\
    count is_clock mid = 0%nat /\
    field ["ping_ms"] (root request env t)
      = Some (JNum (FRound (FMul (FSub (FClock b) (FClock a)) 1000) 2)).
Proof.
  intros request env t. unfold field, content_of. rewrite root_run.
  cbn [snd fst].
  destruct (root_events env t)
    as (e1 & e2 & f & e3 & e4 & -> & _ & S1 & S2 & Sf & S3 & S4).
  do 5 eexists. split; [reflexivity |]. split; [| reflexivity].
  apply imds_segment_counts in S1, S2, S3, S4.
  assert (Hf : count is_clock f = 0%nat).
  { destruct (truthy (local_ip_fetched env t)).
    - subst f. reflexivity.
    - apply fallback_segment_counts, Sf. }
  rewrite !count_app. lia.
Qed.

Lemma imds_trace_with_get (p : str) (env : Env) (t : trace) :
  (forall t0 u h e,
      env_put env t0 u h = Raise e -> isinstance_HTTPError e = true) ->
  exists pout hdrs gout,
    imds_trace p env t
      = t ++ [EvPut IMDS_TOKEN_URL IMDS_HEADERS pout;
              EvGet (meta_data_url p) hdrs gout].
Proof.
  intros Hput. unfold imds_trace. rewrite imds_get_run.
  unfold get_stage, put_event.
  destruct (env_put env t IMDS_TOKEN_URL IMDS_HEADERS) as [r | e] eqn:Hp.
  - cbn [snd]. rewrite <- app_assoc. do 3 eexists. reflexivity.
  - rewrite (Hput _ _ _ _ Hp). cbn [snd]. rewrite <- app_assoc.
    do 3 eexists. reflexivity.
Qed.

Lemma get_urls_app (a b : trace) : get_urls (a ++ b) = get_urls a ++ get_urls b.
Proof.
  unfold get_urls. apply flat_map_app.
Qed.

(** X11. When the token PUT raises nothing but [httpx.HTTPError]s, a
    request to the root handler fetches each of the four attributes
    exactly once, one after the other, in the order public-ipv4,
    local-ipv4, instance-id, placement/availability-zone. *)
Theorem root_fetches_four_attributes_in_order :
  forall (request : Request) (env : Env) (t : trace),
    (forall t0 u h e,
        env_put env t0 u h = Raise e -> isinstance_HTTPError e = true) ->
    exists evs,
      snd (root request env t) = t ++ evs /\
      get_urls evs =
        [ meta_data_url "public-ipv4"; meta_data_url "local-ipv4";
          meta_data_url "instance-id";
          meta_data_url "placement/availability-zone" ].
Proof.
  intros request env t Hput. rewrite root_run. cbn [snd].
  destruct (root_events env t)
    as (e1 & e2 & f & e3 & e4 & -> & (H1 & H2 & _ & H3 & H4)
        & _ & _ & Sf & _ & _).
  eexists. split; [reflexivity |].
  destruct (imds_trace_with_get "public-ipv4" env (t_start env t) Hput)
    as (p1 & h1 & g1 & E1).
  destruct (imds_trace_with_get "local-ipv4" env (t_public env t) Hput)
    as (p2 & h2 & g2 & E2).
  destruct (imds_trace_with_get "instance-id" env (t_private env t) Hput)
    as (p3 & h3 & g3 & E3).
  destruct (imds_trace_with_get "placement/availability-zone" env
              (t_instance env t) Hput) as (p4 & h4 & g4 & E4).
  unfold t_public in H1 at 1. rewrite E1 in H1. apply app_inv_head in H1.
  unfold t_local in H2 at 1. rewrite E2 in H2. apply app_inv_head in H2.
  unfold t_instance in H3 at 1. rewrite E3 in H3. apply app_inv_head in H3.
  unfold t_az in H4 at 1. rewrite E4 in H4. apply app_inv_head in H4.
  subst e1 e2 e3 e4.
  assert (Hf : get_urls f = []).
  { destruct (truthy (local_ip_fetched env t)).
    - subst f. reflexivity.
    - destruct Sf as [(e & ->) | (h & out & ->)]; reflexivity. }
  change (EvPerfCounter (env_perf_counter env t) :: ?l)
    with ([EvPerfCounter (env_perf_counter env t)] ++ l).
  rewrite !get_urls_app, Hf. reflexivity.
Qed.

(** Outside AWS every PUT raises a connection error, and the four GETs
    are tried all the same. *)
Lemma root_fetches_four_attributes_in_order_witness :
  exists evs,
    snd (root req_get_root env_unreachable []) = [] ++ evs /\
    get_urls evs =
      [ meta_data_url "public-ipv4"; meta_data_url "local-ipv4";
        meta_data_url "instance-id";
        meta_data_url "placement/availability-zone" ].
Proof.
  refine (root_fetches_four_attributes_in_order
            req_get_root env_unreachable [] _).
  intros t0 u h e He. cbn in He. inversion He. reflexivity.
Defined.

(** ** Trimming *)

Lemma append_nil_r (s : string) : (s ++ "")%string = s.
Proof.
  induction s as [| c s IH]; cbn; [reflexivity | now rewrite IH].
Qed.

Lemma append_assoc (a b c : string) :
  ((a ++ b) ++ c)%string = (a ++ (b ++ c))%string.
Proof.
  induction a as [| x a IH]; cbn; [reflexivity | now rewrite IH].
Qed.

Lemma rev_string_app (a b : string) :
  rev_string (a ++ b) = (rev_string b ++ rev_string a)%string.
Proof.
  induction a as [| x a IH]; cbn.
  - now rewrite append_nil_r.
  - rewrite IH. apply append_assoc.
Qed.

Lemma rev_string_involutive (s : string) : rev_string (rev_string s) = s.
Proof.
  induction s as [| c s IH]; cbn; [reflexivity |].
  rewrite rev_string_app, IH. reflexivity.
Qed.

Lemma prefix_app (w v q : string) :
  prefix w v = true -> prefix w (v ++ q) = true.
Proof.
  revert v. induction w as [| a w IH]; intros v H.
  - destruct (v ++ q)%string; reflexivity.
  - destruct v as [| b v]; [discriminate |]. cbn in *.
    destruct (ascii_dec a b); [apply IH, H | discriminate].
Qed.

Lemma leading_len_zero (pats : list string) (s : string) :
  Forall (fun w => w <> "") pats ->
  (leading_len pats s = O <-> no_leading pats s).
Proof.
  intros Hne. unfold leading_len, no_leading.
  destruct (find (fun w => prefix w s) pats) as [w |] eqn:Hf.
  - apply find_some in Hf. destruct Hf as [Hin Hp].
    rewrite Forall_forall in Hne. specialize (Hne w Hin).
    split.
    + intros Hlen. destruct w; [contradiction | discriminate].
    + intros Hall. rewrite (Hall w Hin) in Hp. discriminate.
  - split; [| reflexivity]. intros _ w Hin.
    apply (find_none _ _ Hf w Hin).
Qed.

Lemma drop_leading_suffix (pats : list string) (s : string) :
  forall skip, exists p, s = (p ++ drop_leading pats skip s)%string.
Proof.
  induction s as [| c s IH]; intros skip.
  - exists "". destruct skip; reflexivity.
  - cbn [drop_leading]. destruct skip as [| k].
    + destruct (leading_len pats (String c s)) as [| k].
      * exists "". reflexivity.
      * destruct (IH k) as [p Hp]. exists (String c p). cbn. now rewrite <- Hp.
    + destruct (IH k) as [p Hp]. exists (String c p). cbn. now rewrite <- Hp.
Qed.

Lemma drop_leading_clean (pats : list string) (s : string) :
  forall skip,
    drop_leading pats skip s = "" \/
    leading_len pats (drop_leading pats skip s) = O.
Proof.
  induction s as [| c s IH]; intros skip.
  - left. destruct skip; reflexivity.
  - cbn [drop_leading]. destruct skip as [| k]; [| apply IH].
    destruct (leading_len pats (String c s)) as [| k] eqn:Hl;
      [right; exact Hl | apply IH].
Qed.

Lemma drop_leading_fixed (pats : list string) (s : string) :
  s = "" \/ leading_len pats s = O -> drop_leading pats O s = s.
Proof.
  intros [-> | H]; [reflexivity |].
  destruct s as [| c s]; [reflexivity |]. cbn [drop_leading].
  now rewrite H.
Qed.

Lemma py_whitespace_nonempty : Forall (fun w => w <> "") py_whitespace.
Proof.
  unfold py_whitespace. cbn. repeat constructor; discriminate.
Qed.

Lemma rev_whitespace_nonempty :
  Forall (fun w => w <> "") (map rev_string py_whitespace).
Proof.
  unfold py_whitespace. cbn. repeat constructor; discriminate.
Qed.

Lemma strip_trimmed (s : str) : trimmed (strip s).
Proof.
  unfold trimmed, strip, rstrip, lstrip.
  set (x := drop_leading py_whitespace O s).
  set (y := drop_leading (map rev_string py_whitespace) O (rev_string x)).
  assert (Hy : drop_leading (map rev_string py_whitespace) O y = y)
    by (apply drop_leading_fixed, drop_leading_clean).
  split.
  - apply drop_leading_fixed.
    destruct (rev_string y) as [| c r] eqn:Hr; [left; reflexivity | right].
    rewrite <- Hr.
    apply (leading_len_zero _ _ py_whitespace_nonempty). intros w Hin.
    destruct (prefix w (rev_string y)) eqn:Hp; [| reflexivity].
    destruct (drop_leading_suffix (map rev_string py_whitespace)
                (rev_string x) O) as [p Hx]. fold y in Hx.
    assert (Hxx : x = (rev_string y ++ rev_string p)%string).
    { rewrite <- (rev_string_involutive x), Hx. apply rev_string_app. }
    assert (Hclean : x = "" \/ leading_len py_whitespace x = O)
      by apply drop_leading_clean.
    destruct Hclean as [Hempty | Hzero].
    + rewrite Hempty, Hr in Hxx. discriminate.
    + apply (leading_len_zero _ _ py_whitespace_nonempty) in Hzero.
      specialize (Hzero w Hin). rewrite Hxx, (prefix_app _ _ _ Hp) in Hzero.
      discriminate.
  - rewrite rev_string_involutive, Hy. reflexivity.
Qed.

(** X12. A value that [imds_get] returns carries no white space at either
    end: trimming it again, on the left or on the right, changes nothing. *)
Theorem imds_get_value_is_trimmed :
  forall (path : str) (env : Env) (t : trace) (v : str),
    fst (imds_get path env t) = Ok (Some v) ->
    trimmed v /\ strip v = v.
Proof.
  intros path env t v. rewrite imds_get_run. unfold get_stage.
  assert (Hg : forall out, text_if_200 out = Some v -> trimmed v /\ strip v = v).
  { intros [r | e]; cbn; [| discriminate].
    destruct (status_code r =? 200); [| discriminate].
    intros H. inversion H; subst v.
    destruct (strip_trimmed (text r)) as [Hl Hr]. split; [split; assumption |].
    unfold strip at 1. now rewrite Hl, Hr. }
  destruct (env_put env t IMDS_TOKEN_URL IMDS_HEADERS) as [r | e];
    [| destruct (isinstance_HTTPError e)]; cbn [fst]; intros H.
  - inversion H as [H1]. apply (Hg _ H1).
  - inversion H as [H1]. apply (Hg _ H1).
  - discriminate.
Qed.

(** Inside AWS the availability zone comes back with a line feed, which
    is trimmed away. *)
Lemma imds_get_value_is_trimmed_witness :
  trimmed "sa-east-1a" /\ strip "sa-east-1a" = "sa-east-1a".
Proof.
  exact (imds_get_value_is_trimmed "placement/availability-zone" env_aws []
           "sa-east-1a" eq_refl).
Defined.

(** ** More on the metadata fetch helper *)

(** X13. When the token PUT answers 200 with a text that trims to the
    empty string, the token counts as missing: the attribute GET goes out
    with no token header. *)
Theorem imds_get_blank_token_sends_no_header :
  forall (path : str) (env : Env) (t : trace) (r : httpx_Response),
    env_put env t IMDS_TOKEN_URL IMDS_HEADERS = Ok r ->
    status_code r = 200 ->
    strip (text r) = "" ->
    exists out,
      imds_get path env t
        = (Ok (text_if_200 out),
           t ++ [put_event env t; EvGet (meta_data_url path) [] out]).
Proof.
  intros path env t r Hput Hs Htok. rewrite imds_get_run, Hput.
  unfold get_stage. cbn [text_if_200]. rewrite Hs, Htok. cbn [Z.eqb Pos.eqb].
  cbn [token_headers str_truthy]. rewrite <- app_assoc. eexists. reflexivity.
Qed.

(** The service answers 401 to a GET that carries no token. *)
Lemma imds_get_blank_token_sends_no_header_witness :
  exists out,
    imds_get "instance-id" env_blank_token []
      = (Ok (text_if_200 out),
         [put_event env_blank_token [];
          EvGet (meta_data_url "instance-id") [] out]).
Proof.
  exact (imds_get_blank_token_sends_no_header "instance-id" env_blank_token []
           (mk_httpx_Response 200 ("  " ++ LF)%string)
           eq_refl eq_refl eq_refl).
Defined.

(** X14. The calls of one run of [imds_get] are in order: the PUT goes to
    the token URL with the TTL header; the GET goes to the attribute's
    URL and carries no header, or the token header alone with a token
    that is trimmed and not empty. Nothing else is sent. *)
Theorem imds_get_calls_are_well_formed :
  forall (path : str) (env : Env) (t : trace),
  exists evs,
    snd (imds_get path env t) = t ++ evs /\
    Forall (imds_call_ok path) evs.
Proof.
  intros path env t. rewrite imds_get_run. unfold get_stage, put_event.
  assert (Htok : forall out, get_headers_ok (token_headers (text_if_200 out))).
  { intros [r | e]; cbn; [| left; reflexivity].
    destruct (status_code r =? 200); cbn; [| left; reflexivity].
    destruct (strip (text r)) as [| c s] eqn:Hs; cbn; [left; reflexivity |].
    right. exists (String c s). split; [discriminate |]. split; [| reflexivity].
    rewrite <- Hs. apply strip_trimmed. }
  destruct (env_put env t IMDS_TOKEN_URL IMDS_HEADERS) as [r | e] eqn:Hp;
    [| destruct (isinstance_HTTPError e)]; cbn [snd];
    rewrite <- ?app_assoc; cbn [app]; eexists; (split; [reflexivity |]).
  - apply Forall_cons; [split; reflexivity |].
    apply Forall_cons; [| apply Forall_nil].
    split; [reflexivity | apply (Htok (Ok r))].
  - apply Forall_cons; [split; reflexivity |].
    apply Forall_cons; [| apply Forall_nil].
    split; [reflexivity | left; reflexivity].
  - apply Forall_cons; [split; reflexivity | apply Forall_nil].
Qed.

(** ** More on the fallback resolver *)

(** X15. The fallback resolver asks for the host's own name and nothing
    else: it calls [gethostname]; only if that succeeds it calls
    [gethostbyname], once, with the name it got; and it returns the
    address when both calls succeed, [desconhecido] when either raises. *)
Theorem get_private_ip_fallback_outcomes :
  forall (env : Env) (t : trace),
  exists v evs,
    get_private_ip_fallback env t = (Ok v, t ++ evs) /\
    ((exists e, evs = [EvGetHostName (Raise e)] /\ v = "desconhecido") \/
     (exists h e,
         evs = [EvGetHostName (Ok h); EvGetHostByName h (Raise e)] /\
         v = "desconhecido") \/
     (exists h ip,
         evs = [EvGetHostName (Ok h); EvGetHostByName h (Ok ip)] /\ v = ip)).
Proof.
  intros env t.
  unfold get_private_ip_fallback, try_except, bind, socket_gethostname,
    socket_gethostbyname, perform, ret.
  destruct (env_gethostname env t) as [h | e]; cbn.
  - case_env_gethostbyname; cbn; rewrite <- app_assoc; cbn [app];
      do 2 eexists; (split; [reflexivity |]); right;
      [right | left]; do 2 eexists; split; reflexivity.
  - do 2 eexists. split; [reflexivity |]. left. eexists. split; reflexivity.
Qed.

(** ** More on the router *)

(** X16. No request to [/healthz], whatever its method, and no request
    to [/] with a method other than GET makes the application call out:
    it is answered without any call to the metadata service, the
    resolver or a clock. *)
Theorem app_healthz_and_non_get_root_make_no_call :
  forall (request : Request) (env : Env) (t : trace),
    url_path (url request) = "/healthz" \/
    (url_path (url request) = "/" /\ method request <> "GET") ->
    snd (app request env t) = t.
Proof.
  intros request env t H.
  unfold app, routes. cbn [route_request].
  unfold matches. cbn [route_path route_methods app_get endpoint existsb].
  rewrite !orb_false_r.
  destruct H as [Hp | [Hp Hm]]; rewrite Hp; cbn [String.eqb Ascii.eqb Bool.eqb].
  - destruct (String.eqb (method request) "GET"); reflexivity.
  - destruct (String.eqb_spec (method request) "GET") as [Hg | _];
      [contradiction | reflexivity].
Qed.

(** A POST to [/healthz]. *)
Lemma app_healthz_and_non_get_root_make_no_call_witness :
  snd (app req_post_healthz env_aws []) = [].
Proof.
  refine (app_healthz_and_non_get_root_make_no_call req_post_healthz env_aws [] _).
  left. reflexivity.
Defined.

(** ** More on the timestamps *)

Lemma strftime_brt_wall (d1 d2 : datetime) :
  wall_us d1 = wall_us d2 -> strftime_brt d1 = strftime_brt d2.
Proof.
  intros H. unfold strftime_brt, fields. rewrite H. reflexivity.
Qed.

(** X17. On a host whose local time zone is UTC, [server_time_brt]
    renders the clock reading moved by minus three hours; on a host whose
    local time zone is UTC-3 it renders the UTC reading itself, not moved
    at all. *)
Theorem server_time_brt_by_host_zone :
  forall (request : Request) (env : Env) (t : trace),
    (env_local_gmtoff env (env_utcnow env (t_utc env t) / 1000000) = 0 ->
     field ["server_time_brt"] (root request env t)
       = Some (JStr (strftime_brt
            (mk_datetime (env_utcnow env (t_utc env t) - 3 * 3600 * 1000000)
                         None)))) /\
    (env_local_gmtoff env (env_utcnow env (t_utc env t) / 1000000) = -10800 ->
     field ["server_time_brt"] (root request env t)
       = Some (JStr (strftime_brt
            (mk_datetime (env_utcnow env (t_utc env t)) None)))).
Proof.
  intros request env t. unfold field, content_of. rewrite root_run.
  cbn [fst json_at json_get root_payload assoc String.eqb Ascii.eqb Bool.eqb].
  unfold brt_datetime.
  split; intros H; rewrite H; do 2 f_equal; apply strftime_brt_wall;
    cbn [wall_us]; lia.
Qed.

(** Noon UTC on a UTC host and on a UTC-3 host. *)
Lemma server_time_brt_by_host_zone_witness :
  field ["server_time_brt"] (root req_get_root env_aws [])
    = Some (JStr "01/01/2024 09:00:00 AM UTC-3") /\
  field ["server_time_brt"] (root req_get_root env_host_utc_minus_3 [])
    = Some (JStr "01/01/2024 12:00:00 PM UTC-3").
Proof.
  split.
  - exact (proj1 (server_time_brt_by_host_zone req_get_root env_aws [])
                 eq_refl).
  - exact (proj2 (server_time_brt_by_host_zone req_get_root
                    env_host_utc_minus_3 []) eq_refl).
Defined.

Lemma length_append (a b : string) :
  String.length (a ++ b) = (String.length a + String.length b)%nat.
Proof.
  induction a as [| c a IH]; cbn; [reflexivity | now rewrite IH].
Qed.

Lemma length_zfill (w : nat) (n : Z) : String.length (zfill w n) = w.
Proof.
  revert n. induction w as [| w IH]; intros n; cbn [zfill]; [reflexivity |].
  rewrite length_append, IH. cbn. lia.
Qed.

(** X18. The two timestamps have a fixed layout: [server_time_utc] is 19
    or 26 characters followed by [Z]; [server_time_brt] is 22 characters
    followed by the label [ UTC-3], whatever offset was applied. *)
Theorem timestamps_have_fixed_layout :
  forall (request : Request) (env : Env) (t : trace),
  exists iso brt,
    field ["server_time_utc"] (root request env t)
      = Some (JStr (iso ++ "Z")%string) /\
    (String.length iso = 19 \/ String.length iso = 26)%nat /\
    field ["server_time_brt"] (root request env t)
      = Some (JStr (brt ++ " UTC-3")%string) /\
    String.length brt = 22%nat.
Proof.
  intros request env t. unfold field, content_of. rewrite root_run.
  cbn [fst json_at json_get root_payload assoc String.eqb Ascii.eqb Bool.eqb].
  set (d := mk_datetime (env_utcnow env (t_ping env t)) None).
  set (c := fields (brt_datetime env t)).
  exists (isoformat d),
    (zfill 2 (day c) ++ "/" ++ zfill 2 (month c) ++ "/" ++ zfill 4 (year c)
     ++ " "
     ++ zfill 2 (if (hour c mod 12 =? 0)%Z then 12 else hour c mod 12)
     ++ ":" ++ zfill 2 (minute c) ++ ":" ++ zfill 2 (second c) ++ " "
     ++ (if (hour c <? 12)%Z then "AM" else "PM"))%string.
  split; [reflexivity |]. split; [| split].
  - unfold isoformat. rewrite !length_append, !length_zfill.
    destruct (microsecond (fields d) =? 0); cbn [String.length];
      [left | right; rewrite length_append, length_zfill; cbn [String.length]];
      lia.
  - unfold strftime_brt. fold c. rewrite !append_assoc. reflexivity.
  - rewrite !length_append, !length_zfill.
    destruct (hour c <? 12); cbn [String.length]; lia.
Qed.

(** ** The metadata fetch helper as a task *)

Lemma task_imds_get_run (path : str) (env : Task.TaskEnv) (t : trace) :
  Task.imds_get path env t =
    let pout := env_put (Task.world env) t IMDS_TOKEN_URL IMDS_HEADERS in
    let t1 := t ++ [put_event (Task.world env) t] in
    let hdrs := token_headers (text_if_200 pout) in
    let gout := env_get (Task.world env) t1 (meta_data_url path) hdrs in
    if Task.cancel_at env t then (Task.Base Task.CancelledError, t)
    else if token_step_fatal pout then (Task.Done None, t1)
    else if Task.cancel_at env t1 then (Task.Base Task.CancelledError, t1)
    else (Task.Done (text_if_200 gout),
          t1 ++ [EvGet (meta_data_url path) hdrs gout]).
Proof.
  unfold Task.imds_get, Task.acquire_token, Task.try_except, Task.bind,
    Task.await, Task.lift, Task.ret, client_put, client_get, perform,
    put_event.
  cbv beta zeta.
  destruct (Task.cancel_at env t); [reflexivity |].
  destruct (env_put (Task.world env) t IMDS_TOKEN_URL IMDS_HEADERS)
    as [r | e]; cbn [token_step_fatal text_if_200 negb].
  - destruct (status_code r =? 200); cbn [token_headers];
      (match goal with
       | |- context [Task.cancel_at env ?h] => destruct (Task.cancel_at env h)
       end; [reflexivity |]);
      (case_env_get; cbn; [destruct (status_code _ =? 200) |]); reflexivity.
  - destruct (isinstance_HTTPError e); cbn [negb token_headers];
      [| reflexivity].
    match goal with
    | |- context [Task.cancel_at env ?h] => destruct (Task.cancel_at env h)
    end; [reflexivity |].
    case_env_get; cbn; [destruct (status_code _ =? 200) |]; reflexivity.
Qed.

(** C2, as amended. For every attribute path, [imds_get] never raises an
    [Exception]. Once its client is constructed, and unless the task is
    cancelled while the token PUT is pending, it makes that PUT; unless
    the PUT raised an [Exception] that is no [httpx.HTTPError] (then the
    result is [None]) or the task is cancelled while the GET is pending,
    it issues the attribute GET, and returns the trimmed body exactly when
    the environment answers that GET with status 200 and [None] in every
    other case: other status, timeout, connection refusal, name
    resolution failure, any other [Exception]. What it can raise is
    [CancelledError] alone, and only when a cancellation is delivered at
    one of the two awaits. *)
Theorem imds_get_body_iff_200_raises_on_cancellation_only :
  forall (path : str) (env : Task.TaskEnv) (t : trace),
    let pout := env_put (Task.world env) t IMDS_TOKEN_URL IMDS_HEADERS in
    let t1 := t ++ [put_event (Task.world env) t] in
    let hdrs := token_headers (text_if_200 pout) in
    let gout := env_get (Task.world env) t1 (meta_data_url path) hdrs in
    if Task.cancel_at env t then
      Task.imds_get path env t = (Task.Base Task.CancelledError, t)
    else if token_step_fatal pout then
      Task.imds_get path env t = (Task.Done None, t1)
    else if Task.cancel_at env t1 then
      Task.imds_get path env t = (Task.Base Task.CancelledError, t1)
    else
      exists v,
        Task.imds_get path env t
          = (Task.Done v, t1 ++ [EvGet (meta_data_url path) hdrs gout]) /\
        (forall b : str,
            v = Some b <->
            exists r, gout = Ok r /\ status_code r = 200 /\ b = strip (text r)) /\
        (v = None <->
         forall r, gout = Ok r -> status_code r <> 200).
Proof.
  intros path env t. cbv zeta. rewrite task_imds_get_run. cbv zeta.
  destruct (Task.cancel_at env t); [reflexivity |].
  destruct (token_step_fatal _); [reflexivity |].
  destruct (Task.cancel_at env _); [reflexivity |].
  eexists. split; [reflexivity |].
  destruct (env_get _ _ _ _) as [r2 | e2]; cbn [text_if_200].
  - destruct (Z.eqb_spec (status_code r2) 200) as [H200 | H200]; split.
    + intros b; split.
      * intros Hb. inversion Hb; subst b. exists r2. auto.
      * intros (r & Hr & _ & ->). inversion Hr; subst r. reflexivity.
    + split; [discriminate |]. intros H. exfalso. apply (H r2 eq_refl H200).
    + intros b; split; [discriminate |].
      intros (r & Hr & Hs & _). inversion Hr; subst r. contradiction.
    + split; [| reflexivity]. intros _ r Hr. inversion Hr; subst r. exact H200.
  - split.
    + intros b; split; [discriminate |]. intros (r & Hr & _). discriminate Hr.
    + split; [| reflexivity]. intros _ r Hr. discriminate Hr.
Qed.

(** C2, the claim as stated fails: inside AWS, with the task cancelled
    while the attribute GET is pending, [imds_get] raises
    [CancelledError]. *)
Lemma imds_get_raises_when_cancelled :
  Task.imds_get "instance-id" task_cancelled_at_get [] =
    (Task.Base Task.CancelledError,
     [EvPut IMDS_TOKEN_URL IMDS_HEADERS
        (Ok (mk_httpx_Response 200 "AQAEAtoken"))]).
Proof.
  reflexivity.
Qed.


(** ** The root handler as a task *)





(** ** What can make the root handler fail *)

Section Failures.

Variable request : Task.Request.
Variable env : Task.TaskEnv.








End Failures.
